(** * AssetGen API: the Firestore accessor and its REST handlers

    A shallow embedding of [api/models.py], [api/firebase.py] and the
    handlers of [api/index.py], over a model of the document store the
    accessor talks to, followed by the properties of the accessor that
    the specification states.

    Layout:
    - [models]   : field values, the pydantic schemas of [api/models.py];
    - [store]    : the hierarchical document store (external collaborator)
                   as a state, with a state-and-exception monad on top;
    - [firebase] : [FirestoreAccessor];
    - [index]    : the REST handlers;
    - lemmas and the theorems about the specification. *)

From stdpp Require Import gmap strings list fin_maps pretty.
From Stdlib Require Import ZArith.

Set Warnings "-register-all".

Open Scope Z_scope.

(* ===================================================================== *)
(** ** api/models.py *)
(* ===================================================================== *)

Module models.

(** Field values, as they appear in model attributes, in [dict()] output
    and in stored documents.  A [datetime] is its position on a time line
    ([VTime]); a float is carried opaquely.  An attribute holding a nested
    model ([StyleGuide], [Membership], [ProjectMembership]) is carried as
    the [VDict] of its non-null fields. *)
Inductive value :=
| VNone
| VStr (s : string)
| VInt (z : Z)
| VBool (b : bool)
| VTime (t : Z)
| VFloat (bits : Z)
| VList (l : list value)
| VDict (l : list (string * value)).

Definition is_none (v : value) : bool :=
  match v with VNone => true | _ => false end.

(** [class GenerationStatus(str, Enum)] *)
Definition GenerationStatus : list string :=
  ["pending"; "running"; "completed"; "failed"].

(** The nested models, which hold only strings and datetimes. *)
Inductive nested := StyleGuide | Membership | ProjectMembership.

(** The annotations used in the field declarations. *)
Inductive ftype :=
| TStr | TInt | TBool | TDatetime | TFloat | TAny | TStatus
| TList (t : ftype)
| TDict (t : ftype)
| TNested (n : nested).

(** (name, is a datetime, is required) for each field of a nested model. *)
Definition nested_fields (n : nested) : list (string * bool * bool) :=
  match n with
  | StyleGuide =>
      [("markdown_text", false, true); ("title", false, false);
       ("last_edited_by", false, false); ("last_edited_at", true, false)]
  | Membership => [("org_id", false, true); ("role", false, true)]
  | ProjectMembership => [("project_id", false, true); ("role", false, true)]
  end.

Fixpoint assoc (k : string) (l : list (string * value)) : option value :=
  match l with
  | [] => None
  | (k', v) :: l' => if String.eqb k k' then Some v else assoc k l'
  end.

Definition nested_field_ok (l : list (string * value))
    (f : string * bool * bool) : bool :=
  let '(name, is_time, required) := f in
  match assoc name l with
  | None | Some VNone => negb required
  | Some (VStr _) => negb is_time
  | Some (VTime _) => is_time
  | Some _ => false
  end.

(** Whether a non-null value is accepted for an annotation.  Coercions
    between scalar types are not modelled: a value is accepted when it
    already has the annotated shape. *)
Fixpoint has_type (t : ftype) (v : value) {struct v} : bool :=
  match t, v with
  | TAny, _ => true
  | TStr, VStr _ => true
  | TInt, VInt _ => true
  | TBool, VBool _ => true
  | TDatetime, VTime _ => true
  | TFloat, VFloat _ => true
  | TFloat, VInt _ => true
  | TStatus, VStr s => bool_decide (s ∈ GenerationStatus)
  | TList t', VList l => forallb (has_type t') l
  | TDict t', VDict l => forallb (fun kv => let '(_, x) := kv in has_type t' x) l
  | TNested n, VDict l => forallb (nested_field_ok l) (nested_fields n)
  | _, _ => false
  end.

(** What a field gets when the constructor is not given it. *)
Inductive field_default :=
| Required                 (* [Field(...)] or no default *)
| Default (v : value)      (* [= v], [default_factory=list], [default_factory=dict] *)
| DefaultNow.              (* [default_factory=now] *)

Record field := Field {
  f_name : string;
  f_type : ftype;
  f_optional : bool;       (* declared [Optional[...]] *)
  f_default : field_default;
  f_ge0 : bool             (* [ge=0] *)
}.

Definition opt (name : string) (t : ftype) : field :=
  Field name t true (Default VNone) false.

(** [class FirestoreBase(BaseModel)] *)
Definition FirestoreBase : list field :=
  [ opt "id" TStr;
    opt "org_id" TStr;
    opt "project_id" TStr;
    Field "created_at" TDatetime true DefaultNow false;
    opt "updated_at" TDatetime ].

Inductive Kind :=
| Organization | Project | Asset | Generation
| Variant | Theme | ConceptImage | User.

Definition own_fields (k : Kind) : list field :=
  match k with
  | Organization =>
      [ Field "name" TStr false Required false;
        opt "owner_user_id" TStr;
        opt "plan_tier" TStr;
        opt "members_summary" (TList (TDict TAny)) ]
  | Project =>
      [ Field "name" TStr false Required false;
        opt "description" TStr;
        Field "settings" (TDict TAny) true (Default (VDict [])) false;
        opt "style_guide_markdown" TStr;
        opt "style_guide" (TNested StyleGuide);
        Field "asset_count" TInt true (Default (VInt 0)) false;
        Field "theme_count" TInt true (Default (VInt 0)) false ]
  | Theme =>
      [ Field "name" TStr false Required false;
        Field "style_keywords" (TList TStr) false (Default (VList [])) false;
        Field "color_palette" (TList TStr) false (Default (VList [])) false;
        opt "description" TStr;
        opt "example_image" TStr;
        opt "created_by" TStr;
        opt "style_guide_markdown" TStr;
        Field "concept_image_ids" (TList TStr) false (Default (VList [])) false ]
  | ConceptImage =>
      [ Field "image_url" TStr false Required false;
        opt "thumbnail_url" TStr;
        Field "tags" (TList TStr) false (Default (VList [])) false;
        opt "description" TStr;
        opt "attribution" TStr;
        opt "uploaded_by" TStr;
        opt "theme_id" TStr;
        opt "asset_id" TStr;
        Field "usage_count" TInt true (Default (VInt 0)) false ]
  | Variant =>
      [ Field "image_url" TStr false Required false;
        opt "thumbnail_url" TStr;
        Field "metadata" (TDict TAny) true (Default (VDict [])) false;
        Field "is_selected" TBool true (Default (VBool false)) false;
        opt "feedback" TStr;
        opt "generated_at" TDatetime ]
  | Generation =>
      [ Field "prompt_text" TStr false Required false;
        Field "parameters" (TDict TAny) false (Default (VDict [])) false;
        opt "theme_id" TStr;
        opt "theme_snapshot" (TDict TAny);
        Field "concept_image_ids" (TList TStr) false (Default (VList [])) false;
        opt "concept_image_weights" (TDict TFloat);
        Field "variant_count" TInt false (Default (VInt 0)) true;
        opt "triggered_by" TStr;
        Field "status" TStatus false (Default (VStr "pending")) false;
        opt "notes" TStr;
        opt "version_number" TInt;
        opt "variant_summary" (TList (TDict TAny)) ]
  | Asset =>
      [ Field "name" TStr false Required false;
        opt "description" TStr;
        opt "prompt" TStr;
        opt "size" TStr;
        opt "width" TInt;
        opt "height" TInt;
        opt "theme_id" TStr;
        opt "theme_name" TStr;
        Field "concept_image_ids" (TList TStr) false (Default (VList [])) false;
        Field "tags" (TList TStr) false (Default (VList [])) false;
        opt "created_by" TStr;
        opt "final_variant_id" TStr;
        opt "current_image_url" TStr;
        opt "latest_generation_id" TStr;
        opt "latest_generation_at" TDatetime ]
  | User =>
      [ opt "name" TStr;
        opt "email" TStr;
        opt "profile_picture_url" TStr;
        Field "org_memberships" (TList (TNested Membership)) true (Default (VList [])) false;
        Field "project_memberships" (TList (TNested ProjectMembership)) true (Default (VList [])) false;
        opt "last_login" TDatetime;
        Field "preferences" (TDict TAny) true (Default (VDict [])) false ]
  end.

(** Every entity class derives from [FirestoreBase]. *)
Definition schema (k : Kind) : list field := FirestoreBase ++ own_fields k.

Definition field_names (k : Kind) : list string := f_name <$> schema k.

Arguments schema : simpl never.
Arguments field_names : simpl never.

(** A model instance: its class and its attribute dictionary. *)
Record Model := mkModel {
  m_cls : Kind;
  m_attrs : gmap string value
}.

Definition ge0_ok (f : field) (v : value) : bool :=
  if f_ge0 f then match v with VInt z => bool_decide (0 ≤ z) | _ => true end
  else true.

(** Validation of one field of the call of a class on keyword arguments; [None] is a validation
    error.  [now] is the client clock read by [default_factory=now]. *)
Definition validate_field (now : Z) (data : gmap string value) (f : field)
    : option value :=
  match data !! f_name f with
  | Some VNone => if f_optional f then Some VNone else None
  | Some v => if has_type (f_type f) v && ge0_ok f v then Some v else None
  | None =>
      match f_default f with
      | Required => None
      | Default v => Some v
      | DefaultNow => Some (VTime now)
      end
  end.

Fixpoint validate_fields (now : Z) (data : gmap string value) (fs : list field)
    : option (gmap string value) :=
  match fs with
  | [] => Some ∅
  | f :: fs' =>
      match validate_field now data f, validate_fields now data fs' with
      | Some v, Some m => Some (<[f_name f := v]> m)
      | _, _ => None
      end
  end.

(** Calling a model class on the entries of [data]: keys of [data] that are not fields are ignored
    (the entity classes keep pydantic's default [extra]). *)
Definition construct (k : Kind) (now : Z) (data : gmap string value)
    : option Model :=
  mkModel k <$> validate_fields now data (schema k).

(** [hasattr(model, key)] for a field name. *)
Definition hasattr (m : Model) (key : string) : bool :=
  bool_decide (key ∈ field_names (m_cls m)).

(** [setattr(model, key, v)]: assignment is not validated. *)
Definition setattr (m : Model) (key : string) (v : value) : Model :=
  mkModel (m_cls m) (<[key := v]> (m_attrs m)).

(** [getattr(model, key)]; an attribute the class lacks reads as [None]
    here. *)
Definition getattr (m : Model) (key : string) : value :=
  default VNone (m_attrs m !! key).

(** [model.dict()] *)
Definition dict (m : Model) : gmap string value := m_attrs m.

(** [d] without its null entries. *)
Definition exclude_none (d : gmap string value) : gmap string value :=
  filter (fun kv => negb (is_none kv.2)) d.

(** [model.dict(exclude_none=True)] *)
Definition dict_exclude_none (m : Model) : gmap string value :=
  exclude_none (m_attrs m).


(** [class GenerationWithVariants(Generation)]: a generation and its
    [variants]. *)
Record GenerationWithVariants := {
  gwv_generation : Model;
  variants : list Model
}.

End models.

(* ===================================================================== *)
(** ** The document store and the effects of the program *)
(* ===================================================================== *)

Module store.
Import models.

(** A value in a write request: a plain value, or the sentinel
    [firestore.SERVER_TIMESTAMP], which the store replaces by its clock. *)
Inductive field_write :=
| Plain (v : value)
| SERVER_TIMESTAMP.

Definition resolve (ts : Z) (x : field_write) : value :=
  match x with
  | Plain v => v
  | SERVER_TIMESTAMP => VTime ts
  end.

(** [DocumentSnapshot]: [snap_data] is [None] when [exists] is false. *)
Record DocumentSnapshot := mkSnapshot {
  snap_id : string;
  snap_data : option (gmap string value)
}.

(** The calls that reach the store, as they are logged. *)
Inductive Rpc :=
| RpcSet (p : list string) (d : gmap string field_write)
| RpcCreate (p : list string) (d : gmap string field_write)
| RpcGet (p : list string)
| RpcUpdate (p : list string) (d : gmap string field_write)
| RpcDelete (p : list string)
| RpcList (col : list string)
| RpcCommit (ws : list (list string * gmap string field_write)).

(** The world a call runs in.  [docs] maps a document path (its segments)
    to the stored fields; [server_clock] is the store's clock, which moves
    forward at every write; [faults] says, for each coming store call,
    whether it fails (an empty schedule: no failure); [auto_ids] counts the
    document ids generated so far; [log] lists the store calls made;
    [client_clock] is what [models.now()] reads. *)
Record World := mkWorld {
  docs : gmap (list string) (gmap string value);
  server_clock : Z;
  faults : list bool;
  auto_ids : nat;
  log : list Rpc;
  client_clock : Z
}.

Definition with_docs (w : World) (d : gmap (list string) (gmap string value))
    (clock : Z) : World :=
  mkWorld d clock (faults w) (auto_ids w) (log w) (client_clock w).

Inductive exn :=
| StoreException                               (* raised by the store client *)
| FirestoreError (msg : string)
| HTTPException (status_code : Z) (detail : string)
| AttributeError (name : string)
| ValidationError
| AssertionError.

Inductive result (A : Type) :=
| Ok (a : A)
| Raise (e : exn).
Arguments Ok {A} a.
Arguments Raise {A} e.

(** Computations: they read and change the world, and return or raise. *)
Definition M (A : Type) : Type := World -> result A * World.

Definition ret {A} (a : A) : M A := fun w => (Ok a, w).

Definition raise {A} (e : exn) : M A := fun w => (Raise e, w).

Definition bind {A B} (c : M A) (k : A -> M B) : M B :=
  fun w =>
    match c w with
    | (Ok a, w') => k a w'
    | (Raise e, w') => (Raise e, w')
    end.

(** [try: c except Exception as ex: h ex] *)
Definition try_except {A} (c : M A) (h : exn -> M A) : M A :=
  fun w =>
    match c w with
    | (Ok a, w') => (Ok a, w')
    | (Raise e, w') => h e w'
    end.

Declare Scope monad_scope.
Delimit Scope monad_scope with monad.
Notation "x <- c ;; k" := (bind c (fun x => k))
  (at level 20, c at level 99, k at level 200, only parsing) : monad_scope.
Notation "c ;; k" := (bind c (fun _ => k))
  (at level 100, k at level 200, right associativity, only parsing)
  : monad_scope.
Open Scope monad_scope.

(** [models.now()] *)
Definition now : M Z := fun w => (Ok (client_clock w), w).

(** One call to the store: it is logged, and fails if the schedule says so. *)
Definition rpc (r : Rpc) : M unit :=
  fun w =>
    let w' fs := mkWorld (docs w) (server_clock w) fs (auto_ids w)
                   (log w ++ [r]) (client_clock w) in
    match faults w with
    | true :: fs => (Raise StoreException, w' fs)
    | false :: fs => (Ok tt, w' fs)
    | [] => (Ok tt, w' [])
    end.

Definition stamp (ts : Z) (d : gmap string field_write) : gmap string value :=
  resolve ts <$> d.

(** The store applies a set of document writes at one instant of its
    clock. *)
Definition apply_writes (ws : list (list string * gmap string field_write))
    : M unit :=
  fun w =>
    let ts := server_clock w in
    (Ok tt,
     with_docs w
       (foldl (fun ds pd => <[pd.1 := stamp ts pd.2]> ds) (docs w) ws)
       (ts + 1)).

(** The id a collection generates for its [n]-th auto-named document. *)
Definition auto_id (n : nat) : string := "auto_" +:+ pretty n.

(** [collection_ref.document(doc_id)] and [doc_ref.collection(name)] *)
Definition document (col : list string) (doc_id : string) : list string :=
  col ++ [doc_id].
Definition collection (doc : list string) (name : string) : list string :=
  doc ++ [name].

(** [collection_ref.document()]: a reference with a generated id; no call
    to the store. *)
Definition document_auto (col : list string) : M (list string) :=
  fun w =>
    (Ok (document col (auto_id (auto_ids w))),
     mkWorld (docs w) (server_clock w) (faults w) (S (auto_ids w)) (log w)
       (client_clock w)).

(** [doc_ref.id] *)
Definition ref_id (doc_ref : list string) : string := default "" (last doc_ref).

(** [doc_ref.set(payload)] *)
Definition doc_set (doc_ref : list string) (d : gmap string field_write)
    : M unit :=
  rpc (RpcSet doc_ref d) ;; apply_writes [(doc_ref, d)].

(** [doc_ref.create(payload)]: fails when the document exists. *)
Definition doc_create (doc_ref : list string) (d : gmap string field_write)
    : M unit :=
  rpc (RpcCreate doc_ref d) ;;
  fun w =>
    match docs w !! doc_ref with
    | Some _ => (Raise StoreException, w)
    | None => apply_writes [(doc_ref, d)] w
    end.

(** [collection_ref.add(payload)[1]] *)
Definition col_add (col : list string) (d : gmap string field_write)
    : M (list string) :=
  doc_ref <- document_auto col ;;
  doc_create doc_ref d ;;
  ret doc_ref.

(** [doc_ref.get()] *)
Definition doc_get (doc_ref : list string) : M DocumentSnapshot :=
  rpc (RpcGet doc_ref) ;;
  fun w => (Ok (mkSnapshot (ref_id doc_ref) (docs w !! doc_ref)), w).

(** [doc_ref.update(payload)]: merges the fields into the stored ones;
    fails when the document does not exist. *)
Definition doc_update (doc_ref : list string) (d : gmap string field_write)
    : M unit :=
  rpc (RpcUpdate doc_ref d) ;;
  fun w =>
    match docs w !! doc_ref with
    | None => (Raise StoreException, w)
    | Some old =>
        let ts := server_clock w in
        (Ok tt, with_docs w (<[doc_ref := stamp ts d ∪ old]> (docs w)) (ts + 1))
    end.

(** [doc_ref.delete()]: deleting a missing document is not an error. *)
Definition doc_delete (doc_ref : list string) : M unit :=
  rpc (RpcDelete doc_ref) ;;
  fun w => (Ok tt, with_docs w (delete doc_ref (docs w)) (server_clock w + 1)).

(** The id of the document at [p] when [p] lies directly in [col]. *)
Definition child_id (col p : list string) : option string :=
  if bool_decide (length p = S (length col) ∧ take (length col) p = col)
  then last p else None.

Definition col_docs (col : list string)
    (ds : gmap (list string) (gmap string value)) : list DocumentSnapshot :=
  omap (fun pd => match child_id col pd.1 with
                  | Some i => Some (mkSnapshot i (Some pd.2))
                  | None => None
                  end)
       (map_to_list ds).

(** [collection_ref.get()]: the documents of the collection, in the
    store's order. *)
Definition col_get (col : list string) : M (list DocumentSnapshot) :=
  rpc (RpcList col) ;;
  fun w => (Ok (col_docs col (docs w)), w).




(** Iteration in the monad. *)
Fixpoint for_each {A B} (f : A -> M B) (l : list A) : M (list B) :=
  match l with
  | [] => ret []
  | x :: l' => y <- f x ;; ys <- for_each f l' ;; ret (y :: ys)
  end.

(** *** Queries *)

(** Equality of stored values, as a filter of the store decides it. *)
Fixpoint value_eqb (a b : value) {struct a} : bool :=
  match a, b with
  | VNone, VNone => true
  | VStr x, VStr y => String.eqb x y
  | VInt x, VInt y => Z.eqb x y
  | VBool x, VBool y => Bool.eqb x y
  | VTime x, VTime y => Z.eqb x y
  | VFloat x, VFloat y => Z.eqb x y
  | VList l, VList l' =>
      (fix go (l l' : list value) : bool :=
         match l, l' with
         | [], [] => true
         | x :: l, y :: l' => value_eqb x y && go l l'
         | _, _ => false
         end) l l'
  | VDict l, VDict l' =>
      (fix go (l l' : list (string * value)) : bool :=
         match l, l' with
         | [], [] => true
         | (k, x) :: l, (k', y) :: l' =>
             String.eqb k k' && value_eqb x y && go l l'
         | _, _ => false
         end) l l'
  | _, _ => false
  end.

(** The filter operators that the accessor and the handlers pass to the
    store: ["=="] and ["array_contains"]. *)
Inductive FilterOp := OpEq | OpArrayContains.

(** [q.where(field, op, value)] *)
Record Filter := mkFilter {
  flt_field : string;
  flt_op : FilterOp;
  flt_value : value
}.

(** Whether a stored document passes a filter: a document without the
    field passes none; [array_contains] needs the field to be a list. *)
Definition matches (f : Filter) (d : gmap string value) : bool :=
  match flt_op f, d !! flt_field f with
  | OpEq, Some x => value_eqb x (flt_value f)
  | OpArrayContains, Some (VList l) =>
      existsb (fun x => value_eqb x (flt_value f)) l
  | _, _ => false
  end.

Definition passes (q : list Filter) (s : DocumentSnapshot) : bool :=
  match snap_data s with
  | Some d => forallb (fun f => matches f d) q
  | None => false
  end.

(** [q.get()] for the query [q] over the collection [col]: the documents
    of the collection that pass every filter, in the store's order. *)
Definition query_get (col : list string) (q : list Filter)
    : M (list DocumentSnapshot) :=
  rpc (RpcList col) ;;
  fun w => (Ok (List.filter (passes q) (col_docs col (docs w))), w).

End store.

(* ===================================================================== *)
(** ** api/firebase.py *)
(* ===================================================================== *)

Module firebase.
Import models store.

(** The methods that [class FirestoreAccessor] defines, in source order. *)
Definition FirestoreAccessor_methods : list string :=
  [ "__init__"; "_model_to_dict"; "_apply_server_timestamps"; "_doc_to_model";
    "_attach_metadata"; "_query_to_models";
    "_create_doc"; "_get_doc"; "_update_doc"; "_delete_doc";
    "create_organization"; "get_organization"; "list_organizations";
    "update_organization"; "delete_organization";
    "_projects_col"; "create_project"; "get_project"; "list_projects";
    "update_project";
    "_assets_col"; "create_asset"; "get_asset"; "list_assets"; "update_asset";
    "delete_asset";
    "_generations_col"; "create_generation"; "get_generation";
    "list_generations"; "update_generation";
    "_variants_col"; "create_variant"; "get_variant"; "list_variants";
    "_themes_col"; "create_theme"; "list_themes";
    "_concept_images_col"; "create_concept_image"; "list_concept_images";
    "_users_col"; "create_user"; "get_user"; "list_users";
    "create_asset_with_first_generation"; "get_generation_with_variants" ].

(** [accessor.name(...)] for a name the class does not define: the
    attribute lookup raises. *)
Definition call_undefined {A} (name : string) : M A :=
  raise (AttributeError name).

(** A string argument used as a condition: [None] and the empty string are
    false. *)
Definition truthy (o : option string) : option string :=
  match o with
  | Some s => if bool_decide (s = "") then None else Some s
  | None => None
  end.

(** [self.orgs_col = self.client.collection("organizations")] *)
Definition orgs_col : list string := ["organizations"].

Definition _model_to_dict (model : Model) (include_id : bool)
    : gmap string value :=
  let data := dict_exclude_none model in
  if negb include_id && bool_decide (is_Some (data !! "id"))
  then delete "id" data
  else data.

(** No operation of the accessor calls this helper. *)
Definition _apply_server_timestamps (d : gmap string field_write)
    (timestamp_fields : list string) : gmap string field_write :=
  foldl (fun d k => <[k := SERVER_TIMESTAMP]> d) d timestamp_fields.

(** The text interpolated into error messages is left out of them. *)
Definition _doc_to_model (doc_snapshot : DocumentSnapshot) (model_cls : Kind)
    : M (option Model) :=
  match snap_data doc_snapshot with
  | None => ret None
  | Some data =>
      let data := <["id" := VStr (snap_id doc_snapshot)]> data in
      t <- now ;;
      match construct model_cls t data with
      | Some model => ret (Some model)
      | None => raise (FirestoreError "Failed to parse document")
      end
  end.

Definition _attach_metadata (model : Model)
    (fields : list (string * option string)) : Model :=
  foldl (fun model kv =>
           match kv.2 with
           | Some value =>
               if hasattr model kv.1 then setattr model kv.1 (VStr value)
               else model
           | None => model
           end)
        model fields.

Definition _query_to_models (query_snapshot : list DocumentSnapshot)
    (model_cls : Kind) : M (list Model) :=
  results <- for_each (fun doc => _doc_to_model doc model_cls) query_snapshot ;;
  ret (omap id results).

Definition _create_doc (collection_ref : list string)
    (data : gmap string value) (doc_id : option string)
    (set_timestamps : bool) : M (list string) :=
  let payload : gmap string field_write := Plain <$> data in
  let payload :=
    if set_timestamps then
      let payload :=
        if bool_decide (is_Some (payload !! "created_at")) then payload
        else <["created_at" := SERVER_TIMESTAMP]> payload in
      <["updated_at" := SERVER_TIMESTAMP]> payload
    else payload in
  try_except
    (match truthy doc_id with
     | Some doc_id =>
         let doc_ref := document collection_ref doc_id in
         doc_set doc_ref payload ;;
         ret doc_ref
     | None => col_add collection_ref payload
     end)
    (fun ex => raise (FirestoreError "Error creating document")).

Definition _get_doc (doc_ref : list string) (model_cls : Kind)
    : M (option Model) :=
  snapshot <- try_except (doc_get doc_ref)
                (fun ex => raise (FirestoreError "Error reading document")) ;;
  _doc_to_model snapshot model_cls.

Definition _update_doc (doc_ref : list string) (updates : gmap string value)
    (set_updated_at : bool) : M unit :=
  let payload : gmap string field_write := Plain <$> updates in
  let payload :=
    if set_updated_at then <["updated_at" := SERVER_TIMESTAMP]> payload
    else payload in
  try_except (doc_update doc_ref payload)
    (fun ex => raise (FirestoreError "Error updating document")).

Definition _delete_doc (doc_ref : list string) : M unit :=
  try_except (doc_delete doc_ref)
    (fun ex => raise (FirestoreError "Error deleting document")).

(** *** Organization helpers *)

Definition create_organization (org : Model) (org_id : option string)
    : M Model :=
  let data := _model_to_dict org false in
  let col := orgs_col in
  doc_ref <- _create_doc col data org_id true ;;
  created <- _get_doc doc_ref Organization ;;
  match created with
  | None => raise (FirestoreError "Failed to read back created organization.")
  | Some created => ret created
  end.

Definition get_organization (org_id : string) : M (option Model) :=
  let doc_ref := document orgs_col org_id in
  _get_doc doc_ref Organization.

Definition update_organization (org_id : string)
    (updates : gmap string value) : M unit :=
  let doc_ref := document orgs_col org_id in
  _update_doc doc_ref updates true.

Definition delete_organization (org_id : string) : M unit :=
  let doc_ref := document orgs_col org_id in
  _delete_doc doc_ref.

(** *** Project helpers *)

Definition _projects_col (org_id : string) : list string :=
  collection (document orgs_col org_id) "projects".

Definition create_project (org_id : string) (project : Model)
    (project_id : option string) : M Model :=
  let data := _model_to_dict project false in
  let col := _projects_col org_id in
  doc_ref <- _create_doc col data project_id true ;;
  created <- _get_doc doc_ref Project ;;
  match created with
  | None => raise (FirestoreError "Failed to read back created project.")
  | Some created => ret (_attach_metadata created [("org_id", Some org_id)])
  end.

Definition get_project (org_id project_id : string) : M (option Model) :=
  let doc_ref := document (_projects_col org_id) project_id in
  project <- _get_doc doc_ref Project ;;
  match project with
  | Some project =>
      ret (Some (_attach_metadata project [("org_id", Some org_id)]))
  | None => ret None
  end.

Definition update_project (org_id project_id : string)
    (updates : gmap string value) : M unit :=
  let doc_ref := document (_projects_col org_id) project_id in
  _update_doc doc_ref updates true.

(** *** Asset helpers *)

Definition _assets_col (org_id project_id : string) : list string :=
  collection (document (_projects_col org_id) project_id) "assets".

Definition create_asset (org_id project_id : string) (asset : Model)
    (asset_id : option string) : M Model :=
  let data := _model_to_dict asset false in
  let col := _assets_col org_id project_id in
  doc_ref <- _create_doc col data asset_id true ;;
  created <- _get_doc doc_ref Asset ;;
  match created with
  | None => raise (FirestoreError "Failed to read back created asset.")
  | Some created =>
      ret (_attach_metadata created
             [("org_id", Some org_id); ("project_id", Some project_id)])
  end.

Definition get_asset (org_id project_id asset_id : string)
    : M (option Model) :=
  let doc_ref := document (_assets_col org_id project_id) asset_id in
  asset <- _get_doc doc_ref Asset ;;
  match asset with
  | Some asset =>
      ret (Some (_attach_metadata asset
                   [("org_id", Some org_id); ("project_id", Some project_id)]))
  | None => ret None
  end.

Definition update_asset (org_id project_id asset_id : string)
    (updates : gmap string value) : M unit :=
  let doc_ref := document (_assets_col org_id project_id) asset_id in
  _update_doc doc_ref updates true.

Definition delete_asset (org_id project_id asset_id : string) : M unit :=
  let doc_ref := document (_assets_col org_id project_id) asset_id in
  _delete_doc doc_ref.

(** *** Generation helpers *)

Definition _generations_col (org_id project_id asset_id : string)
    : list string :=
  collection (document (_assets_col org_id project_id) asset_id) "generations".

Definition create_generation (org_id project_id asset_id : string)
    (generation : Model) (generation_id : option string) : M Model :=
  let data := _model_to_dict generation false in
  let col := _generations_col org_id project_id asset_id in
  doc_ref <- _create_doc col data generation_id true ;;
  created <- _get_doc doc_ref Generation ;;
  match created with
  | None => raise (FirestoreError "Failed to read back created generation.")
  | Some created =>
      ret (_attach_metadata created
             [("org_id", Some org_id); ("project_id", Some project_id);
              ("asset_id", Some asset_id)])
  end.

Definition get_generation (org_id project_id asset_id generation_id : string)
    : M (option Model) :=
  let doc_ref :=
    document (_generations_col org_id project_id asset_id) generation_id in
  generation <- _get_doc doc_ref Generation ;;
  match generation with
  | Some generation =>
      ret (Some (_attach_metadata generation
                   [("org_id", Some org_id); ("project_id", Some project_id);
                    ("asset_id", Some asset_id)]))
  | None => ret None
  end.

Definition update_generation
    (org_id project_id asset_id generation_id : string)
    (updates : gmap string value) : M unit :=
  let doc_ref :=
    document (_generations_col org_id project_id asset_id) generation_id in
  _update_doc doc_ref updates true.

(** *** Variant helpers *)

Definition _variants_col (org_id project_id asset_id generation_id : string)
    : list string :=
  collection
    (document (_generations_col org_id project_id asset_id) generation_id)
    "variants".

Definition create_variant (org_id project_id asset_id generation_id : string)
    (variant : Model) (variant_id : option string) : M Model :=
  let data := _model_to_dict variant false in
  let col := _variants_col org_id project_id asset_id generation_id in
  doc_ref <- _create_doc col data variant_id true ;;
  created <- _get_doc doc_ref Variant ;;
  match created with
  | None => raise (FirestoreError "Failed to read back created variant.")
  | Some created =>
      ret (_attach_metadata created
             [("org_id", Some org_id); ("project_id", Some project_id);
              ("asset_id", Some asset_id);
              ("generation_id", Some generation_id)])
  end.

Definition get_variant
    (org_id project_id asset_id generation_id variant_id : string)
    : M (option Model) :=
  let doc_ref :=
    document (_variants_col org_id project_id asset_id generation_id)
      variant_id in
  variant <- _get_doc doc_ref Variant ;;
  match variant with
  | Some variant =>
      ret (Some (_attach_metadata variant
                   [("org_id", Some org_id); ("project_id", Some project_id);
                    ("asset_id", Some asset_id);
                    ("generation_id", Some generation_id)]))
  | None => ret None
  end.

Definition list_variants (org_id project_id asset_id generation_id : string)
    : M (list Model) :=
  let col := _variants_col org_id project_id asset_id generation_id in
  snaps <- try_except (col_get col)
             (fun ex => raise (FirestoreError "Error listing variants")) ;;
  found <- _query_to_models snaps Variant ;;
  ret ((fun variant =>
          _attach_metadata variant
            [("org_id", Some org_id); ("project_id", Some project_id);
             ("asset_id", Some asset_id);
             ("generation_id", Some generation_id)]) <$> found).

(** *** Theme helpers *)

Definition _themes_col (org_id project_id : string) : list string :=
  collection (document (_projects_col org_id) project_id) "themes".

Definition create_theme (org_id project_id : string) (theme : Model)
    (theme_id : option string) : M Model :=
  let data := _model_to_dict theme false in
  let col := _themes_col org_id project_id in
  doc_ref <- _create_doc col data theme_id true ;;
  created <- _get_doc doc_ref Theme ;;
  match created with
  | None => raise (FirestoreError "Failed to read back created theme.")
  | Some created =>
      ret (_attach_metadata created
             [("org_id", Some org_id); ("project_id", Some project_id)])
  end.

(** *** ConceptImage helpers *)

Definition _concept_images_col (org_id project_id : string) : list string :=
  collection (document (_projects_col org_id) project_id) "conceptImages".

Definition create_concept_image (org_id project_id : string) (ci : Model)
    (image_id : option string) : M Model :=
  let data := _model_to_dict ci false in
  let col := _concept_images_col org_id project_id in
  doc_ref <- _create_doc col data image_id true ;;
  created <- _get_doc doc_ref ConceptImage ;;
  match created with
  | None => raise (FirestoreError "Failed to read back created concept image.")
  | Some created =>
      ret (_attach_metadata created
             [("org_id", Some org_id); ("project_id", Some project_id)])
  end.

(** *** User helpers *)

Definition _users_col : list string := ["users"].

Definition create_user (user : Model) (user_id : option string) : M Model :=
  let data := _model_to_dict user false in
  let col := _users_col in
  doc_ref <- _create_doc col data user_id true ;;
  created <- _get_doc doc_ref User ;;
  match created with
  | None => raise (FirestoreError "Failed to read back created user.")
  | Some created => ret created
  end.

Definition get_user (user_id : string) : M (option Model) :=
  let doc_ref := document _users_col user_id in
  _get_doc doc_ref User.

(** *** Convenience operations *)



Definition get_generation_with_variants
    (org_id project_id asset_id generation_id : string)
    : M (option GenerationWithVariants) :=
  gen <- get_generation org_id project_id asset_id generation_id ;;
  match gen with
  | None => ret None
  | Some gen =>
      found <- list_variants org_id project_id asset_id generation_id ;;
      let data := <["id" := VStr generation_id]> (dict gen) in
      t <- now ;;
      match construct Generation t data,
            mapM (fun v => construct Variant t (dict v)) found with
      | Some g, Some vs =>
          ret (Some {| gwv_generation := g; variants := vs |})
      | _, _ => raise ValidationError
      end
  end.

(** *** List helpers *)

Definition list_organizations : M (list Model) :=
  snaps <- try_except (col_get orgs_col)
             (fun ex => raise (FirestoreError "Error listing organizations")) ;;
  _query_to_models snaps Organization.

Definition list_projects (org_id : string) : M (list Model) :=
  let col := _projects_col org_id in
  snaps <- try_except (col_get col)
             (fun ex => raise (FirestoreError "Error listing projects")) ;;
  found <- _query_to_models snaps Project ;;
  ret ((fun project => _attach_metadata project [("org_id", Some org_id)])
         <$> found).

(** A [where] clause is a triple here, so the check of its length has
    nothing to reject; its operator is one of the two modelled ones. *)
Definition list_assets (org_id project_id : string)
    (where_ : option (list (string * FilterOp * value))) : M (list Model) :=
  let col := _assets_col org_id project_id in
  let q : list Filter :=
    match where_ with
    | Some clauses =>
        foldl (fun q clause => q ++ [mkFilter clause.1.1 clause.1.2 clause.2])
          [] clauses
    | None => []
    end in
  snaps <- try_except (query_get col q)
             (fun ex => raise (FirestoreError "Error listing assets")) ;;
  found <- _query_to_models snaps Asset ;;
  ret ((fun asset =>
          _attach_metadata asset
            [("org_id", Some org_id); ("project_id", Some project_id)])
         <$> found).

Definition list_themes (org_id project_id : string) : M (list Model) :=
  let col := _themes_col org_id project_id in
  snaps <- try_except (col_get col)
             (fun ex => raise (FirestoreError "Error listing themes")) ;;
  found <- _query_to_models snaps Theme ;;
  ret ((fun theme =>
          _attach_metadata theme
            [("org_id", Some org_id); ("project_id", Some project_id)])
         <$> found).

Definition list_concept_images (org_id project_id : string)
    (tag : option string) : M (list Model) :=
  let col := _concept_images_col org_id project_id in
  let q : list Filter :=
    match truthy tag with
    | Some tag => [mkFilter "tags" OpArrayContains (VStr tag)]
    | None => []
    end in
  snaps <- try_except (query_get col q)
             (fun ex => raise (FirestoreError "Error listing concept images")) ;;
  found <- _query_to_models snaps ConceptImage ;;
  ret ((fun ci =>
          _attach_metadata ci
            [("org_id", Some org_id); ("project_id", Some project_id)])
         <$> found).

Definition list_users : M (list Model) :=
  let col := _users_col in
  snaps <- try_except (col_get col)
             (fun ex => raise (FirestoreError "Error listing users")) ;;
  _query_to_models snaps User.

End firebase.

(* ===================================================================== *)
(** ** api/index.py *)
(* ===================================================================== *)

Module index.
Import models store.

(** A request body, after the framework has validated it against its
    schema: the fields the body sets, each with its value (a field set to
    null is present with [VNone]). *)
Abbreviation Payload := (gmap string value).

Definition HTTP_204_NO_CONTENT : Z := 204.
Definition HTTP_400_BAD_REQUEST : Z := 400.
Definition HTTP_404_NOT_FOUND : Z := 404.
Definition HTTP_500_INTERNAL_SERVER_ERROR : Z := 500.

(** [payload.dict(exclude_unset=True, exclude_none=True)] *)
Definition payload_dict (payload : Payload) : gmap string value :=
  exclude_none payload.

(** [data.pop("id", None)], for the [Optional[str]] field [id]. *)
Definition pop_id (data : gmap string value) : option string :=
  match data !! "id" with
  | Some (VStr s) => Some s
  | _ => None
  end.

(** [try: c except FirestoreError as exc: raise HTTPException(500, str(exc))] *)
Definition except_FirestoreError {A} (c : M A) : M A :=
  try_except c
    (fun e =>
       match e with
       | FirestoreError msg =>
           raise (HTTPException HTTP_500_INTERNAL_SERVER_ERROR msg)
       | _ => raise e
       end).

Definition _build_firestore_model (model_cls : Kind)
    (data : gmap string value) : M Model :=
  t <- now ;;
  match construct model_cls t data with
  | None => raise ValidationError
  | Some model =>
      let model :=
        if hasattr model "id" then setattr model "id" VNone else model in
      let model :=
        if hasattr model "created_at" then setattr model "created_at" VNone
        else model in
      let model :=
        if hasattr model "updated_at" then setattr model "updated_at" VNone
        else model in
      ret model
  end.

Definition _apply_metadata (model : Model)
    (metadata : list (string * option string)) : Model :=
  foldl (fun model kv =>
           match kv.2 with
           | Some value =>
               if hasattr model kv.1 then setattr model kv.1 (VStr value)
               else model
           | None => model
           end)
        model metadata.

Definition _require_updates (payload : Payload) : M (gmap string value) :=
  let updates := payload_dict payload in
  if bool_decide (updates = ∅)
  then raise (HTTPException HTTP_400_BAD_REQUEST
                "No fields provided for update.")
  else ret updates.

Definition found_or_404 (x : option Model) : M Model :=
  match x with
  | None => raise (HTTPException HTTP_404_NOT_FOUND "Not found.")
  | Some x => ret x
  end.

(** [assert updated is not None] *)
Definition assert_not_None (x : option Model) : M Model :=
  match x with
  | None => raise AssertionError
  | Some x => ret x
  end.

(** *** /orgs *)

Definition create_organization (payload : Payload) : M Model :=
  let data := payload_dict payload in
  let org_id := pop_id data in
  let data := delete "id" data in
  org_model <- _build_firestore_model Organization data ;;
  except_FirestoreError (firebase.create_organization org_model org_id).

Definition get_organization (org_id : string) : M Model :=
  organization <- except_FirestoreError (firebase.get_organization org_id) ;;
  found_or_404 organization.

Definition update_organization (org_id : string) (payload : Payload)
    : M Model :=
  updates <- _require_updates payload ;;
  get_organization org_id ;;
  updated <- except_FirestoreError
               (firebase.update_organization org_id updates ;;
                firebase.get_organization org_id) ;;
  assert_not_None updated.

Definition delete_organization (org_id : string) : M Z :=
  get_organization org_id ;;
  except_FirestoreError (firebase.delete_organization org_id) ;;
  ret HTTP_204_NO_CONTENT.

(** *** /orgs/{org_id}/projects *)

Definition create_project (org_id : string) (payload : Payload) : M Model :=
  let data := payload_dict payload in
  let project_id := pop_id data in
  let data := delete "id" data in
  project_model <- _build_firestore_model Project data ;;
  let project_model := _apply_metadata project_model [("org_id", Some org_id)] in
  except_FirestoreError
    (firebase.create_project org_id project_model project_id).

Definition get_project (org_id project_id : string) : M Model :=
  project <- except_FirestoreError (firebase.get_project org_id project_id) ;;
  found_or_404 project.

Definition update_project (org_id project_id : string) (payload : Payload)
    : M Model :=
  updates <- _require_updates payload ;;
  get_project org_id project_id ;;
  updated <- except_FirestoreError
               (firebase.update_project org_id project_id updates ;;
                firebase.get_project org_id project_id) ;;
  assert_not_None updated.

Definition delete_project (org_id project_id : string) : M Z :=
  get_project org_id project_id ;;
  except_FirestoreError (firebase.call_undefined (A:=unit) "delete_project") ;;
  ret HTTP_204_NO_CONTENT.

(** *** .../assets *)

Definition create_asset (org_id project_id : string) (payload : Payload)
    : M Model :=
  let data := payload_dict payload in
  let asset_id := pop_id data in
  let data := delete "id" data in
  asset_model <- _build_firestore_model Asset data ;;
  let asset_model :=
    _apply_metadata asset_model
      [("org_id", Some org_id); ("project_id", Some project_id)] in
  except_FirestoreError
    (firebase.create_asset org_id project_id asset_model asset_id).

Definition get_asset (org_id project_id asset_id : string) : M Model :=
  asset <- except_FirestoreError
             (firebase.get_asset org_id project_id asset_id) ;;
  found_or_404 asset.

Definition update_asset (org_id project_id asset_id : string)
    (payload : Payload) : M Model :=
  updates <- _require_updates payload ;;
  get_asset org_id project_id asset_id ;;
  updated <- except_FirestoreError
               (firebase.update_asset org_id project_id asset_id updates ;;
                firebase.get_asset org_id project_id asset_id) ;;
  assert_not_None updated.

Definition delete_asset (org_id project_id asset_id : string) : M Z :=
  get_asset org_id project_id asset_id ;;
  except_FirestoreError (firebase.delete_asset org_id project_id asset_id) ;;
  ret HTTP_204_NO_CONTENT.

(** *** .../generations *)

Definition create_generation (org_id project_id asset_id : string)
    (payload : Payload) : M Model :=
  let data := payload_dict payload in
  let generation_id := pop_id data in
  let data := delete "id" data in
  generation_model <- _build_firestore_model Generation data ;;
  let generation_model :=
    _apply_metadata generation_model
      [("org_id", Some org_id); ("project_id", Some project_id);
       ("asset_id", Some asset_id)] in
  except_FirestoreError
    (firebase.create_generation org_id project_id asset_id generation_model
       generation_id).

Definition get_generation (org_id project_id asset_id generation_id : string)
    : M Model :=
  generation <- except_FirestoreError
                  (firebase.get_generation org_id project_id asset_id
                     generation_id) ;;
  found_or_404 generation.

Definition update_generation
    (org_id project_id asset_id generation_id : string) (payload : Payload)
    : M Model :=
  updates <- _require_updates payload ;;
  get_generation org_id project_id asset_id generation_id ;;
  updated <- except_FirestoreError
               (firebase.update_generation org_id project_id asset_id
                  generation_id updates ;;
                firebase.get_generation org_id project_id asset_id
                  generation_id) ;;
  assert_not_None updated.

Definition delete_generation
    (org_id project_id asset_id generation_id : string) : M Z :=
  get_generation org_id project_id asset_id generation_id ;;
  except_FirestoreError (firebase.call_undefined (A:=unit) "delete_generation") ;;
  ret HTTP_204_NO_CONTENT.

(** *** .../variants *)

Definition create_variant (org_id project_id asset_id generation_id : string)
    (payload : Payload) : M Model :=
  let data := payload_dict payload in
  let variant_id := pop_id data in
  let data := delete "id" data in
  variant_model <- _build_firestore_model Variant data ;;
  let variant_model :=
    _apply_metadata variant_model
      [("org_id", Some org_id); ("project_id", Some project_id);
       ("asset_id", Some asset_id); ("generation_id", Some generation_id)] in
  except_FirestoreError
    (firebase.create_variant org_id project_id asset_id generation_id
       variant_model variant_id).

Definition get_variant
    (org_id project_id asset_id generation_id variant_id : string)
    : M Model :=
  variant <- except_FirestoreError
               (firebase.get_variant org_id project_id asset_id generation_id
                  variant_id) ;;
  found_or_404 variant.

Definition update_variant
    (org_id project_id asset_id generation_id variant_id : string)
    (payload : Payload) : M Model :=
  updates <- _require_updates payload ;;
  get_variant org_id project_id asset_id generation_id variant_id ;;
  updated <- except_FirestoreError
               (firebase.call_undefined (A:=unit) "update_variant" ;;
                firebase.get_variant org_id project_id asset_id generation_id
                  variant_id) ;;
  assert_not_None updated.

Definition delete_variant
    (org_id project_id asset_id generation_id variant_id : string) : M Z :=
  get_variant org_id project_id asset_id generation_id variant_id ;;
  except_FirestoreError (firebase.call_undefined (A:=unit) "delete_variant") ;;
  ret HTTP_204_NO_CONTENT.

(** *** .../themes *)

Definition create_theme (org_id project_id : string) (payload : Payload)
    : M Model :=
  let data := payload_dict payload in
  let theme_id := pop_id data in
  let data := delete "id" data in
  theme_model <- _build_firestore_model Theme data ;;
  let theme_model :=
    _apply_metadata theme_model
      [("org_id", Some org_id); ("project_id", Some project_id)] in
  except_FirestoreError
    (firebase.create_theme org_id project_id theme_model theme_id).

Definition get_theme (org_id project_id theme_id : string) : M Model :=
  theme <- except_FirestoreError (firebase.call_undefined "get_theme") ;;
  found_or_404 theme.

Definition update_theme (org_id project_id theme_id : string)
    (payload : Payload) : M Model :=
  updates <- _require_updates payload ;;
  get_theme org_id project_id theme_id ;;
  updated <- except_FirestoreError
               (firebase.call_undefined (A:=unit) "update_theme" ;;
                firebase.call_undefined "get_theme") ;;
  assert_not_None updated.

Definition delete_theme (org_id project_id theme_id : string) : M Z :=
  get_theme org_id project_id theme_id ;;
  except_FirestoreError (firebase.call_undefined (A:=unit) "delete_theme") ;;
  ret HTTP_204_NO_CONTENT.

(** *** .../concept-images *)

Definition create_concept_image (org_id project_id : string)
    (payload : Payload) : M Model :=
  let data := payload_dict payload in
  let image_id := pop_id data in
  let data := delete "id" data in
  concept_image_model <- _build_firestore_model ConceptImage data ;;
  let concept_image_model :=
    _apply_metadata concept_image_model
      [("org_id", Some org_id); ("project_id", Some project_id)] in
  except_FirestoreError
    (firebase.create_concept_image org_id project_id concept_image_model
       image_id).

Definition get_concept_image (org_id project_id image_id : string)
    : M Model :=
  concept_image <- except_FirestoreError
                     (firebase.call_undefined "get_concept_image") ;;
  found_or_404 concept_image.

Definition update_concept_image (org_id project_id image_id : string)
    (payload : Payload) : M Model :=
  updates <- _require_updates payload ;;
  get_concept_image org_id project_id image_id ;;
  updated <- except_FirestoreError
               (firebase.call_undefined (A:=unit) "update_concept_image" ;;
                firebase.call_undefined "get_concept_image") ;;
  assert_not_None updated.

Definition delete_concept_image (org_id project_id image_id : string) : M Z :=
  get_concept_image org_id project_id image_id ;;
  except_FirestoreError (firebase.call_undefined (A:=unit) "delete_concept_image") ;;
  ret HTTP_204_NO_CONTENT.

(** *** /users *)

Definition create_user (payload : Payload) : M Model :=
  let data := payload_dict payload in
  let user_id := pop_id data in
  let data := delete "id" data in
  user_model <- _build_firestore_model User data ;;
  except_FirestoreError (firebase.create_user user_model user_id).

Definition get_user (user_id : string) : M Model :=
  user <- except_FirestoreError (firebase.get_user user_id) ;;
  found_or_404 user.

Definition update_user (user_id : string) (payload : Payload) : M Model :=
  updates <- _require_updates payload ;;
  get_user user_id ;;
  updated <- except_FirestoreError
               (firebase.call_undefined (A:=unit) "update_user" ;;
                firebase.get_user user_id) ;;
  assert_not_None updated.

(** The body of this handler ends as the other DELETE handlers do. *)
Definition delete_user (user_id : string) : M Z :=
  get_user user_id ;;
  except_FirestoreError (firebase.call_undefined (A:=unit) "delete_user") ;;
  ret HTTP_204_NO_CONTENT.

(** *** Collection endpoints *)

Definition healthcheck : list (string * string) := [("status", "ok")].

Definition list_organizations : M (list Model) :=
  except_FirestoreError firebase.list_organizations.

Definition list_projects (org_id : string) : M (list Model) :=
  except_FirestoreError (firebase.list_projects org_id).

Definition list_assets (org_id project_id : string)
    (tag theme_id : option string) : M (list Model) :=
  let where_ : list (string * FilterOp * value) := [] in
  let where_ :=
    match firebase.truthy tag with
    | Some tag => where_ ++ [("tags", OpArrayContains, VStr tag)]
    | None => where_
    end in
  let where_ :=
    match firebase.truthy theme_id with
    | Some theme_id => where_ ++ [("theme_id", OpEq, VStr theme_id)]
    | None => where_
    end in
  except_FirestoreError
    (firebase.list_assets org_id project_id
       (match where_ with [] => None | _ => Some where_ end)).

Definition list_variants (org_id project_id asset_id generation_id : string)
    : M (list Model) :=
  except_FirestoreError
    (firebase.list_variants org_id project_id asset_id generation_id).

Definition list_themes (org_id project_id : string) : M (list Model) :=
  except_FirestoreError (firebase.list_themes org_id project_id).

Definition list_concept_images (org_id project_id : string)
    (tag : option string) : M (list Model) :=
  except_FirestoreError (firebase.list_concept_images org_id project_id tag).

Definition list_users : M (list Model) :=
  except_FirestoreError firebase.list_users.

End index.

(* ===================================================================== *)
(** ** Vocabulary of the statements *)
(* ===================================================================== *)

Import models store.

(** *** Valid entity values *)

(** A value agrees with the declaration of a field. *)
Definition value_valid (f : field) (v : value) : bool :=
  match v with
  | VNone => f_optional f
  | _ => has_type (f_type f) v && ge0_ok f v
  end.

(** A field of an instance agrees with its declaration. *)
Definition field_valid (attrs : gmap string value) (f : field) : bool :=
  match attrs !! f_name f with
  | None => false
  | Some v => value_valid f v
  end.

(** A valid entity value: an instance whose attributes are exactly the
    fields of its class, each agreeing with its declaration. *)
Definition valid_model (m : Model) : bool :=
  forallb (field_valid (m_attrs m)) (schema (m_cls m))
  && bool_decide (dom (m_attrs m) ⊆ list_to_set (field_names (m_cls m))).

(** What the field declarations of a class are checked for: the envelope
    fields and the ancestor identifiers are optional strings or datetimes,
    an optional field has a default, and defaults agree with the
    declaration. *)
Definition declaration_ok (f : field) : bool :=
  (if bool_decide (f_name f ∈ ["id"; "org_id"; "project_id"; "asset_id";
                                "generation_id"])
   then match f_type f with TStr => f_optional f && negb (f_ge0 f) | _ => false end
   else true)
  && (if bool_decide (f_name f ∈ ["created_at"; "updated_at"])
      then match f_type f with
           | TDatetime => f_optional f && negb (f_ge0 f)
           | _ => false
           end
      else true)
  && match f_default f with
     | Required => negb (f_optional f)
     | Default VNone => f_optional f
     | Default d => has_type (f_type f) d && ge0_ok f d
     | DefaultNow => match f_type f with TDatetime => negb (f_ge0 f) | _ => false end
     end.

(** The denormalized ancestor identifiers. *)
Definition ancestor_keys : list string :=
  ["org_id"; "project_id"; "asset_id"; "generation_id"].

(** A value with its null case folded into absence. *)
Definition nonnull (o : option value) : option value :=
  match o with
  | Some v => if is_none v then None else Some v
  | None => None
  end.

(** *** The create and get operations, by where they write *)

(** A collection an entity is created in, with the path arguments of the
    operation. *)
Inductive Target :=
| InOrganizations
| InProjects (org_id : string)
| InAssets (org_id project_id : string)
| InGenerations (org_id project_id asset_id : string)
| InVariants (org_id project_id asset_id generation_id : string)
| InThemes (org_id project_id : string)
| InConceptImages (org_id project_id : string)
| InUsers.

Definition target_cls (t : Target) : Kind :=
  match t with
  | InOrganizations => Organization
  | InProjects _ => Project
  | InAssets _ _ => Asset
  | InGenerations _ _ _ => Generation
  | InVariants _ _ _ _ => Variant
  | InThemes _ _ => Theme
  | InConceptImages _ _ => ConceptImage
  | InUsers => User
  end.

Definition target_col (t : Target) : list string :=
  match t with
  | InOrganizations => firebase.orgs_col
  | InProjects o => firebase._projects_col o
  | InAssets o p => firebase._assets_col o p
  | InGenerations o p a => firebase._generations_col o p a
  | InVariants o p a g => firebase._variants_col o p a g
  | InThemes o p => firebase._themes_col o p
  | InConceptImages o p => firebase._concept_images_col o p
  | InUsers => firebase._users_col
  end.

(** The keyword arguments the operation passes to [_attach_metadata]. *)
Definition target_meta (t : Target) : list (string * option string) :=
  match t with
  | InOrganizations | InUsers => []
  | InProjects o => [("org_id", Some o)]
  | InAssets o p | InThemes o p | InConceptImages o p =>
      [("org_id", Some o); ("project_id", Some p)]
  | InGenerations o p a =>
      [("org_id", Some o); ("project_id", Some p); ("asset_id", Some a)]
  | InVariants o p a g =>
      [("org_id", Some o); ("project_id", Some p); ("asset_id", Some a);
       ("generation_id", Some g)]
  end.

(** The single-document Create of the accessor for each collection. *)
Definition create (t : Target) : Model -> option string -> M Model :=
  match t with
  | InOrganizations => firebase.create_organization
  | InProjects o => firebase.create_project o
  | InAssets o p => firebase.create_asset o p
  | InGenerations o p a => firebase.create_generation o p a
  | InVariants o p a g => firebase.create_variant o p a g
  | InThemes o p => firebase.create_theme o p
  | InConceptImages o p => firebase.create_concept_image o p
  | InUsers => firebase.create_user
  end.

(** The Get of the accessor, for the collections that have one. *)
Definition get (t : Target) : option (string -> M (option Model)) :=
  match t with
  | InOrganizations => Some firebase.get_organization
  | InProjects o => Some (firebase.get_project o)
  | InAssets o p => Some (firebase.get_asset o p)
  | InGenerations o p a => Some (firebase.get_generation o p a)
  | InVariants o p a g => Some (firebase.get_variant o p a g)
  | InThemes _ _ | InConceptImages _ _ => None
  | InUsers => Some firebase.get_user
  end.

(** The shape every Create of the accessor has. *)
Definition create_in (col : list string) (cls : Kind)
    (meta : list (string * option string)) (msg : string)
    (m : Model) (doc_id : option string) : M Model :=
  doc_ref <- firebase._create_doc col (firebase._model_to_dict m false)
               doc_id true ;;
  created <- firebase._get_doc doc_ref cls ;;
  match created with
  | None => raise (FirestoreError msg)
  | Some created => ret (firebase._attach_metadata created meta)
  end.

(** The shape every Get of the accessor has. *)
Definition get_in (col : list string) (cls : Kind)
    (meta : list (string * option string)) (doc_id : string)
    : M (option Model) :=
  found <- firebase._get_doc (document col doc_id) cls ;;
  match found with
  | Some found => ret (Some (firebase._attach_metadata found meta))
  | None => ret None
  end.

Definition target_msg (t : Target) : string :=
  match t with
  | InOrganizations => "Failed to read back created organization."
  | InProjects _ => "Failed to read back created project."
  | InAssets _ _ => "Failed to read back created asset."
  | InGenerations _ _ _ => "Failed to read back created generation."
  | InVariants _ _ _ _ => "Failed to read back created variant."
  | InThemes _ _ => "Failed to read back created theme."
  | InConceptImages _ _ => "Failed to read back created concept image."
  | InUsers => "Failed to read back created user."
  end.

(** The id a Create gives its document: the caller's when it is a
    non-empty string, the next generated one otherwise. *)
Definition assigned_id (doc_id : option string) (w : World) : string :=
  match firebase.truthy doc_id with
  | Some i => i
  | None => auto_id (auto_ids w)
  end.

(** The request a Create sends: [set] on a named document, [create] on a
    generated one. *)
Definition write_rpc (doc_id : option string) (doc_ref : list string)
    (payload : gmap string field_write) : Rpc :=
  match firebase.truthy doc_id with
  | Some _ => RpcSet doc_ref payload
  | None => RpcCreate doc_ref payload
  end.

(** The payload [_create_doc] builds from serialized data when it sets
    timestamps. *)
Definition create_payload (data : gmap string value)
    : gmap string field_write :=
  <["updated_at" := SERVER_TIMESTAMP]>
    (if bool_decide (is_Some ((Plain <$> data : gmap string field_write)
                                !! "created_at"))
     then Plain <$> data
     else <["created_at" := SERVER_TIMESTAMP]> (Plain <$> data)).

(** What a Create's read-back parses: the document as the store holds it
    after a write at store time [ts], with the document id [i] put in. *)
Definition readback (ts : Z) (i : string) (m : Model) : gmap string value :=
  <["id" := VStr i]>
    (stamp ts (create_payload (firebase._model_to_dict m false))).

(** *** The PATCH handlers *)

Inductive Patch :=
| PatchOrganization (org_id : string)
| PatchProject (org_id project_id : string)
| PatchAsset (org_id project_id asset_id : string)
| PatchGeneration (org_id project_id asset_id generation_id : string)
| PatchVariant (org_id project_id asset_id generation_id variant_id : string)
| PatchTheme (org_id project_id theme_id : string)
| PatchConceptImage (org_id project_id image_id : string)
| PatchUser (user_id : string).

Definition patch (p : Patch) : index.Payload -> M Model :=
  match p with
  | PatchOrganization o => index.update_organization o
  | PatchProject o pr => index.update_project o pr
  | PatchAsset o pr a => index.update_asset o pr a
  | PatchGeneration o pr a g => index.update_generation o pr a g
  | PatchVariant o pr a g v => index.update_variant o pr a g v
  | PatchTheme o pr t => index.update_theme o pr t
  | PatchConceptImage o pr i => index.update_concept_image o pr i
  | PatchUser u => index.update_user u
  end.

(** *** The operations of the uniform pattern *)

Inductive Op := Create | Get | List | Update | Delete.

Definition kinds : list Kind :=
  [Organization; Project; Asset; Generation; Variant; Theme; ConceptImage; User].

Definition ops : list Op := [Create; Get; List; Update; Delete].

Definition singular (k : Kind) : string :=
  match k with
  | Organization => "organization" | Project => "project" | Asset => "asset"
  | Generation => "generation" | Variant => "variant" | Theme => "theme"
  | ConceptImage => "concept_image" | User => "user"
  end.

(** The name under which the handlers of [index.py] call the operation. *)
Definition method_name (k : Kind) (op : Op) : string :=
  match op with
  | Create => "create_" +:+ singular k
  | Get => "get_" +:+ singular k
  | List => "list_" +:+ singular k +:+ "s"
  | Update => "update_" +:+ singular k
  | Delete => "delete_" +:+ singular k
  end.

Definition accessor_defines (k : Kind) (op : Op) : bool :=
  bool_decide (method_name k op ∈ firebase.FirestoreAccessor_methods).

(** The operations of the uniform pattern that the accessor lacks. *)
Definition missing_operations : list (Kind * Op) :=
  List.filter (fun ko => negb (accessor_defines ko.1 ko.2))
    (k ← kinds; (fun op => (k, op)) <$> ops).

(** *** Relations between the world before and after a call *)

(** No stored field that held a non-null value has lost it. *)
Definition no_field_cleared
    (ds ds' : gmap (list string) (gmap string value)) : Prop :=
  ∀ p d k v, ds !! p = Some d -> d !! k = Some v -> is_none v = false ->
    ∃ d' v', ds' !! p = Some d' ∧ d' !! k = Some v' ∧ is_none v' = false.

(** The store calls a PATCH may make for the update map [updates]: reads,
    and an update carrying exactly [updates] and the [updated_at]
    sentinel. *)
Definition patch_call (updates : gmap string value) (r : Rpc) : Prop :=
  match r with
  | RpcGet _ => True
  | RpcUpdate _ d => d = <["updated_at" := SERVER_TIMESTAMP]> (Plain <$> updates)
  | _ => False
  end.

Definition patch_effect (updates : gmap string value) (w w' : World) : Prop :=
  no_field_cleared (docs w) (docs w')
  ∧ ∃ calls, log w' = log w ++ calls ∧ Forall (patch_call updates) calls.

(** A computation leaves every world in relation [R] with the one it
    started from, whatever it returns or raises. *)
Definition preserves {A} (R : World -> World -> Prop) (c : M A) : Prop :=
  ∀ w, R w (c w).2.




(** The world once the store has answered a call [r], with [fs] the
    failures still scheduled. *)
Definition answered (w : World) (r : Rpc) (fs : list bool) : World :=
  mkWorld (docs w) (server_clock w) fs (auto_ids w) (log w ++ [r])
    (client_clock w).

(** *** The compound create *)




(** *** Worlds and values of the examples *)

(** An empty store whose clock reads 5, seen from a client whose clock
    reads 100. *)
Definition w0 : World := mkWorld ∅ 5 [] 0 [] 100.

(** [cls(name=value, ...)] built at client time [t]. *)
Definition build (k : Kind) (data : list (string * value)) (t : Z) : Model :=
  default (mkModel k ∅) (construct k t (list_to_map data)).

(** The state of a world after a computation, and its outcome. *)
Definition after {A} (c : M A) (w : World) : World := (c w).2.
Definition outcome {A} (c : M A) (w : World) : result A := (c w).1.

(** The scenario of the specification. *)
Definition scenario_setup : M unit :=
  firebase.create_organization
    (build Organization [("name", VStr "Acme")] 100) (Some "org_1") ;;
  firebase.create_project "org_1"
    (build Project [("name", VStr "Demo")] 100) (Some "proj_1") ;;
  firebase.create_asset "org_1" "proj_1"
    (build Asset [("name", VStr "Hero")] 100) (Some "asset_1") ;;
  firebase.create_generation "org_1" "proj_1" "asset_1"
    (build Generation [("prompt_text", VStr "a hero")] 100) (Some "gen_1") ;;
  firebase.update_generation "org_1" "proj_1" "asset_1" "gen_1"
    {[ "status" := VStr "completed" ]} ;;
  firebase.create_variant "org_1" "proj_1" "asset_1" "gen_1"
    (build Variant [("image_url", VStr "gs://example/v1.png")] 100) None ;;
  firebase.create_variant "org_1" "proj_1" "asset_1" "gen_1"
    (build Variant [("image_url", VStr "gs://example/v2.png")] 100) None ;;
  ret tt.

Definition scenario : M (option GenerationWithVariants) :=
  scenario_setup ;;
  firebase.get_generation_with_variants "org_1" "proj_1" "asset_1" "gen_1".

Definition image_url (v : Model) : value := getattr v "image_url".

(** What the accessor attaches to a variant read under the given
    organization and project. *)
Definition variant_metadata (org_id project_id : string) (v : Model) : Prop :=
  m_cls v = Variant
  ∧ m_attrs v !! "org_id" = Some (VStr org_id)
  ∧ m_attrs v !! "project_id" = Some (VStr project_id)
  ∧ hasattr v "asset_id" = false
  ∧ hasattr v "generation_id" = false
  ∧ m_attrs v !! "asset_id" = None
  ∧ m_attrs v !! "generation_id" = None.

(** A world that holds one organization, [org_1], named Acme. *)
Definition w_org : World :=
  after (firebase.create_organization
           (build Organization [("name", VStr "Acme")] 100) (Some "org_1")) w0.

(** A world that holds one user, [user_1]. *)
Definition w_user : World :=
  after (firebase.create_user
           (build User [("name", VStr "Test User");
                        ("email", VStr "test@example.com")] 100)
           (Some "user_1")) w0.

(** *** The other operations, by where they act *)

(** The Update of the accessor, for the collections that have one. *)
Definition update_op (t : Target)
    : option (string -> gmap string value -> M unit) :=
  match t with
  | InOrganizations => Some firebase.update_organization
  | InProjects o => Some (firebase.update_project o)
  | InAssets o p => Some (firebase.update_asset o p)
  | InGenerations o p a => Some (firebase.update_generation o p a)
  | _ => None
  end.

(** The Delete of the accessor, for the collections that have one. *)
Definition delete_op (t : Target) : option (string -> M unit) :=
  match t with
  | InOrganizations => Some firebase.delete_organization
  | InAssets o p => Some (firebase.delete_asset o p)
  | _ => None
  end.

(** The List of the accessor without filters ([list_generations], which
    orders its result, is not among them). *)
Definition list_op (t : Target) : option (M (list Model)) :=
  match t with
  | InOrganizations => Some firebase.list_organizations
  | InProjects o => Some (firebase.list_projects o)
  | InAssets o p => Some (firebase.list_assets o p None)
  | InGenerations _ _ _ => None
  | InVariants o p a g => Some (firebase.list_variants o p a g)
  | InThemes o p => Some (firebase.list_themes o p)
  | InConceptImages o p => Some (firebase.list_concept_images o p None)
  | InUsers => Some firebase.list_users
  end.

(** The shape every List of the accessor has, for a query [q]. *)
Definition list_in (col : list string) (q : list Filter) (cls : Kind)
    (meta : list (string * option string)) (msg : string) : M (list Model) :=
  snaps <- try_except (query_get col q)
             (fun ex => raise (FirestoreError msg)) ;;
  found <- firebase._query_to_models snaps cls ;;
  ret ((fun m => firebase._attach_metadata m meta) <$> found).

Definition list_msg (t : Target) : string :=
  match t with
  | InOrganizations => "Error listing organizations"
  | InProjects _ => "Error listing projects"
  | InAssets _ _ => "Error listing assets"
  | InGenerations _ _ _ => "Error listing generations"
  | InVariants _ _ _ _ => "Error listing variants"
  | InThemes _ _ => "Error listing themes"
  | InConceptImages _ _ => "Error listing concept images"
  | InUsers => "Error listing users"
  end.

(** What a read parses a snapshot to, at client time [t]. *)
Definition parsed (cls : Kind) (t : Z) (s : DocumentSnapshot) : option Model :=
  match snap_data s with
  | Some d => construct cls t (<["id" := VStr (snap_id s)]> d)
  | None => None
  end.


Definition rest_create (t : Target) : index.Payload -> M Model :=
  match t with
  | InOrganizations => index.create_organization
  | InProjects o => index.create_project o
  | InAssets o p => index.create_asset o p
  | InGenerations o p a => index.create_generation o p a
  | InVariants o p a g => index.create_variant o p a g
  | InThemes o p => index.create_theme o p
  | InConceptImages o p => index.create_concept_image o p
  | InUsers => index.create_user
  end.

Definition rest_delete (t : Target) : string -> M Z :=
  match t with
  | InOrganizations => index.delete_organization
  | InProjects o => index.delete_project o
  | InAssets o p => index.delete_asset o p
  | InGenerations o p a => index.delete_generation o p a
  | InVariants o p a g => index.delete_variant o p a g
  | InThemes o p => index.delete_theme o p
  | InConceptImages o p => index.delete_concept_image o p
  | InUsers => index.delete_user
  end.


(** A stored document that the class cannot take: it lacks a required
    field, or, for a generation, its status is not one of the enumeration
    or its variant count is negative. *)
Definition unparseable (cls : Kind) (d : gmap string value) : Prop :=
  (∃ f, f ∈ schema cls ∧ f_default f = Required ∧ d !! f_name f = None)
  ∨ (cls = Generation
     ∧ ∃ s, d !! "status" = Some (VStr s) ∧ s ∉ GenerationStatus)
  ∨ (cls = Generation ∧ ∃ z, d !! "variant_count" = Some (VInt z) ∧ z < 0).

(* ===================================================================== *)
(** ** Serialization and validation *)
(* ===================================================================== *)

Section models_lemmas.

Lemma nonnull_Some o v : nonnull o = Some v ↔ o = Some v ∧ is_none v = false.
Proof.
  unfold nonnull. destruct o as [x|].
  - destruct (is_none x) eqn:E; split.
    + discriminate.
    + intros [[= ->] Hv]. congruence.
    + intros [= ->]. done.
    + intros [[= ->] _]. done.
  - split; [discriminate|intros [? _]; discriminate].
Qed.

Lemma exclude_none_lookup (d : gmap string value) k :
  exclude_none d !! k = nonnull (d !! k).
Proof.
  unfold exclude_none. rewrite map_lookup_filter.
  destruct (d !! k) as [v|]; simpl; [|done].
  destruct (is_none v); simpl; by rewrite ?option_guard_True, ?option_guard_False.
Qed.

Lemma exclude_none_empty (d : gmap string value) :
  (∀ k v, d !! k = Some v -> v = VNone) -> exclude_none d = ∅.
Proof.
  intros H. apply map_empty. intros k. rewrite exclude_none_lookup.
  destruct (d !! k) as [v|] eqn:E; [|done].
  by rewrite (H _ _ E).
Qed.

Lemma _model_to_dict_lookup m k :
  firebase._model_to_dict m false !! k
  = if bool_decide (k = "id") then None else nonnull (m_attrs m !! k).
Proof.
  unfold firebase._model_to_dict, dict_exclude_none. simpl.
  case_bool_decide as Hid; case_bool_decide as Hk; subst.
  - by rewrite lookup_delete_eq.
  - rewrite lookup_delete_ne by done. apply exclude_none_lookup.
  - rewrite exclude_none_lookup in *.
    destruct (nonnull (m_attrs m !! "id")) eqn:E; [|done].
    exfalso. apply Hid. by eexists.
  - apply exclude_none_lookup.
Qed.

(** Validation of a list of declarations, field by field. *)
Lemma validate_fields_lookup t data fs r :
  NoDup (f_name <$> fs) ->
  validate_fields t data fs = Some r ->
  (∀ f, f ∈ fs -> r !! f_name f = validate_field t data f)
  ∧ (∀ key, key ∉ f_name <$> fs -> r !! key = None).
Proof.
  revert r. induction fs as [|f fs IH]; intros r Hnd Hv; simpl in *.
  - injection Hv as <-. split; [intros f Hf; by apply elem_of_nil in Hf|done].
  - apply NoDup_cons in Hnd as [Hf Hnd].
    destruct (validate_field t data f) as [v|] eqn:Ev; [|done].
    destruct (validate_fields t data fs) as [r'|] eqn:Er; [|done].
    injection Hv as <-. destruct (IH r' Hnd eq_refl) as [IH1 IH2]. split.
    + intros g Hg. apply elem_of_cons in Hg as [->|Hg].
      * by rewrite lookup_insert_eq.
      * rewrite lookup_insert_ne; [by apply IH1|].
        intros Heq. apply Hf. rewrite Heq. by apply list_elem_of_fmap_2.
    + intros key Hkey. apply not_elem_of_cons in Hkey as [Hne Hkey].
      rewrite lookup_insert_ne by done. by apply IH2.
Qed.

Lemma validate_fields_is_Some t data fs :
  (∀ f, f ∈ fs -> is_Some (validate_field t data f)) ->
  is_Some (validate_fields t data fs).
Proof.
  induction fs as [|f fs IH]; intros H; simpl; [by eexists|].
  destruct (H f) as [v ->]; [by left|].
  destruct IH as [r ->]; [intros g Hg; apply H; by right|]. by eexists.
Qed.

Lemma field_names_NoDup k : NoDup (field_names k).
Proof. destruct k; apply (bool_decide_unpack _); by vm_compute. Qed.

Lemma declarations_ok k f : f ∈ schema k -> declaration_ok f = true.
Proof.
  assert (forallb declaration_ok (schema k) = true) as H
    by (destruct k; vm_compute; reflexivity).
  intros Hf. rewrite forallb_forall in H. apply H. by apply list_elem_of_In.
Qed.

Lemma field_of_name k key :
  key ∈ field_names k -> ∃ f, f ∈ schema k ∧ f_name f = key.
Proof.
  unfold field_names. intros (f & -> & Hf)%list_elem_of_fmap. eauto.
Qed.

End models_lemmas.

Section validity.

Lemma validate_field_value_valid t data f v :
  declaration_ok f = true ->
  validate_field t data f = Some v -> value_valid f v = true.
Proof.
  intros Hd. unfold validate_field, value_valid.
  destruct (data !! f_name f) as [x|].
  - destruct x; intros H; repeat case_match; simplify_eq; done.
  - unfold declaration_ok in Hd.
    apply andb_prop in Hd as [_ Hd].
    destruct (f_default f) as [|d|]; [done| |].
    + intros [= <-]. destruct d; exact Hd.
    + intros [= <-]. simpl. destruct (f_type f); try done.
      unfold ge0_ok. by destruct (f_ge0 f).
Qed.

Lemma validate_field_of_valid t data f v :
  data !! f_name f = Some v -> value_valid f v = true ->
  validate_field t data f = Some v.
Proof.
  intros Hl Hv. unfold validate_field. rewrite Hl.
  unfold value_valid in Hv. destruct v; by rewrite Hv.
Qed.

Lemma validate_fields_each t data fs r :
  validate_fields t data fs = Some r ->
  ∀ f, f ∈ fs -> is_Some (validate_field t data f).
Proof.
  revert r. induction fs as [|g fs IH]; intros r Hv f Hf.
  - by apply elem_of_nil in Hf.
  - simpl in Hv.
    destruct (validate_field t data g) as [v|] eqn:Ev; [|done].
    destruct (validate_fields t data fs) as [r'|] eqn:Er; [|done].
    apply elem_of_cons in Hf as [->|Hf]; [by rewrite Ev|by eapply IH].
Qed.

Lemma valid_model_field m f :
  valid_model m = true -> f ∈ schema (m_cls m) ->
  ∃ v, m_attrs m !! f_name f = Some v ∧ value_valid f v = true.
Proof.
  intros [H _]%andb_prop Hf. rewrite forallb_forall in H.
  specialize (H f). unfold field_valid in H.
  destruct (m_attrs m !! f_name f) as [v|].
  - exists v. split; [done|]. apply H. by apply list_elem_of_In.
  - discriminate H. by apply list_elem_of_In.
Qed.

Lemma valid_model_dom m key :
  valid_model m = true -> is_Some (m_attrs m !! key) ->
  key ∈ field_names (m_cls m).
Proof.
  intros [_ H]%andb_prop Hk. apply bool_decide_eq_true in H.
  apply elem_of_dom in Hk. apply H in Hk. by apply elem_of_list_to_set in Hk.
Qed.

Lemma valid_model_intro k attrs :
  (∀ f, f ∈ schema k ->
        ∃ v, attrs !! f_name f = Some v ∧ value_valid f v = true) ->
  (∀ key, is_Some (attrs !! key) -> key ∈ field_names k) ->
  valid_model (mkModel k attrs) = true.
Proof.
  intros H1 H2. unfold valid_model. cbn [m_attrs m_cls].
  apply andb_true_intro. split.
  - apply (proj2 (forallb_forall _ _)). intros f Hf%list_elem_of_In.
    destruct (H1 f Hf) as (v & Hv & Hok). unfold field_valid. by rewrite Hv.
  - apply bool_decide_eq_true. intros key Hk%elem_of_dom.
    apply elem_of_list_to_set. by apply H2.
Qed.

(** What the constructor returns is a valid value of the class. *)
Lemma construct_valid k t data m :
  construct k t data = Some m -> valid_model m = true ∧ m_cls m = k.
Proof.
  unfold construct. destruct (validate_fields t data (schema k)) as [r|] eqn:E;
    [|done].
  intros [= <-]. split; [|done].
  pose proof (field_names_NoDup k) as Hnd.
  destruct (validate_fields_lookup _ _ _ _ Hnd E) as [H1 H2].
  apply valid_model_intro.
  - intros f Hf. destruct (validate_fields_each _ _ _ _ E f Hf) as [v Hv].
    exists v. rewrite H1 by done. split; [done|].
    eapply validate_field_value_valid; [by eapply declarations_ok|done].
  - intros key [v Hv]. destruct (decide (key ∈ field_names k)); [done|].
    rewrite H2 in Hv; done.
Qed.


Lemma hasattr_true m key : hasattr m key = true ↔ key ∈ field_names (m_cls m).
Proof. unfold hasattr. apply bool_decide_eq_true. Qed.

Lemma construct_lookup k t data m f :
  construct k t data = Some m -> f ∈ schema k ->
  m_attrs m !! f_name f = validate_field t data f.
Proof.
  unfold construct. destruct (validate_fields t data (schema k)) as [r|] eqn:E;
    [|done].
  intros [= <-] Hf. simpl.
  by apply (validate_fields_lookup _ _ _ _ (field_names_NoDup k) E).
Qed.

Lemma construct_lookup_None k t data m key :
  construct k t data = Some m -> key ∉ field_names k ->
  m_attrs m !! key = None.
Proof.
  unfold construct. destruct (validate_fields t data (schema k)) as [r|] eqn:E;
    [|done].
  intros [= <-] Hf. simpl.
  by apply (validate_fields_lookup _ _ _ _ (field_names_NoDup k) E).
Qed.

(** Assigning a valid value to a field keeps the instance valid. *)
Lemma setattr_valid m key v :
  valid_model m = true ->
  key ∈ field_names (m_cls m) ->
  (∀ f, f ∈ schema (m_cls m) -> f_name f = key -> value_valid f v = true) ->
  valid_model (setattr m key v) = true.
Proof.
  intros Hm Hkey Hv. unfold setattr. apply valid_model_intro.
  - intros f Hf. destruct (decide (f_name f = key)) as [<-|Hne].
    + exists v. rewrite lookup_insert_eq. split; [done|by apply Hv].
    + rewrite lookup_insert_ne by done. by apply valid_model_field.
  - intros k' Hk'. destruct (decide (key = k')) as [<-|Hne]; [done|].
    rewrite lookup_insert_ne in Hk' by done. by apply valid_model_dom.
Qed.

End validity.

Section metadata.

Lemma attach_cons m kv meta :
  firebase._attach_metadata m (kv :: meta)
  = firebase._attach_metadata
      (match kv.2 with
       | Some value => if hasattr m kv.1 then setattr m kv.1 (VStr value) else m
       | None => m
       end) meta.
Proof. reflexivity. Qed.

Lemma attach_cls m meta : m_cls (firebase._attach_metadata m meta) = m_cls m.
Proof.
  revert m. induction meta as [|[key [val|]] meta IH]; intros m; [done| |].
  - rewrite attach_cons, IH. simpl. by destruct (hasattr m key).
  - by rewrite attach_cons, IH.
Qed.

Lemma hasattr_attach m meta key :
  hasattr (firebase._attach_metadata m meta) key = hasattr m key.
Proof. unfold hasattr. by rewrite attach_cls. Qed.

(** An attribute that is not among the keyword arguments is untouched. *)
Lemma attach_lookup_other m meta key :
  key ∉ meta.*1 ->
  m_attrs (firebase._attach_metadata m meta) !! key = m_attrs m !! key.
Proof.
  revert m. induction meta as [|[k [val|]] meta IH]; intros m Hk; [done| |];
    rewrite fmap_cons in Hk; apply not_elem_of_cons in Hk as [Hne Hk];
    rewrite attach_cons, IH by done; simpl in *; [|done].
  destruct (hasattr m k); [|done]. simpl. by rewrite lookup_insert_ne.
Qed.

(** A name that is not a field of the class is never attached. *)
Lemma attach_not_field m meta key :
  hasattr m key = false ->
  m_attrs (firebase._attach_metadata m meta) !! key = m_attrs m !! key.
Proof.
  revert m. induction meta as [|[k [val|]] meta IH]; intros m Hk; [done| |];
    rewrite attach_cons; simpl; [|by apply IH].
  destruct (hasattr m k) eqn:E; [|by apply IH].
  rewrite IH by done. simpl. rewrite lookup_insert_ne; [done|].
  intros ->. congruence.
Qed.

(** A keyword argument that names a field of the class is attached. *)
Lemma attach_lookup_in m meta key val :
  NoDup meta.*1 -> (key, Some val) ∈ meta -> hasattr m key = true ->
  m_attrs (firebase._attach_metadata m meta) !! key = Some (VStr val).
Proof.
  revert m. induction meta as [|[k v] meta IH]; intros m Hnd Hin Hh.
  - by apply elem_of_nil in Hin.
  - rewrite fmap_cons in Hnd. apply NoDup_cons in Hnd as [Hk Hnd].
    rewrite attach_cons. apply elem_of_cons in Hin as [[= <- <-]|Hin].
    + simpl. rewrite Hh, attach_lookup_other by done. simpl.
      by rewrite lookup_insert_eq.
    + apply IH; [done..|]. simpl. destruct v as [x|]; [|done].
      by destruct (hasattr m k).
Qed.


Lemma target_meta_keys t :
  Forall (fun kv => kv.1 ∈ ancestor_keys) (target_meta t).
Proof.
  destruct t; simpl; repeat apply Forall_cons_2; try apply Forall_nil_2;
    apply (bool_decide_unpack _); by vm_compute.
Qed.

Lemma target_meta_NoDup t : NoDup (target_meta t).*1.
Proof. destruct t; simpl; apply (bool_decide_unpack _); by vm_compute. Qed.

Lemma _apply_metadata_eq m meta :
  index._apply_metadata m meta = firebase._attach_metadata m meta.
Proof. reflexivity. Qed.

End metadata.

(* ===================================================================== *)
(** ** The store and the generic document helpers *)
(* ===================================================================== *)

Section effects.

Lemma bind_Ok {A B} (c : M A) (k : A -> M B) w a w' :
  c w = (Ok a, w') -> bind c k w = k a w'.
Proof. intros H. unfold bind. by rewrite H. Qed.

Lemma ref_id_document col i : ref_id (document col i) = i.
Proof. unfold ref_id, document. by rewrite last_snoc. Qed.

(** The payload a Create sends, field by field. *)
Lemma create_payload_lookup (data : gmap string value) key :
  create_payload data !! key
  = if bool_decide (key = "updated_at") then Some SERVER_TIMESTAMP
    else if bool_decide (key = "created_at")
         then Some (from_option Plain SERVER_TIMESTAMP (data !! "created_at"))
         else Plain <$> data !! key.
Proof.
  unfold create_payload.
  destruct (decide (key = "updated_at")) as [->|Hu].
  { by rewrite lookup_insert_eq. }
  rewrite lookup_insert_ne by done.
  rewrite (bool_decide_eq_false_2 (key = "updated_at")) by done.
  rewrite (lookup_fmap Plain data "created_at").
  destruct (decide (key = "created_at")) as [->|Hc].
  - rewrite (bool_decide_eq_true_2 ("created_at" = "created_at")) by done.
    destruct (data !! "created_at") as [c|] eqn:Ec; simpl.
    + rewrite ?bool_decide_eq_true_2 by (by eexists).
      by rewrite lookup_fmap, Ec.
    + rewrite ?bool_decide_eq_false_2 by (by intros [? ?]).
      by rewrite lookup_insert_eq.
  - rewrite (bool_decide_eq_false_2 (key = "created_at")) by done.
    destruct (data !! "created_at") as [c|] eqn:Ec; simpl.
    + rewrite ?bool_decide_eq_true_2 by (by eexists). by rewrite lookup_fmap.
    + rewrite ?bool_decide_eq_false_2 by (by intros [? ?]).
      rewrite lookup_insert_ne by done. by rewrite lookup_fmap.
Qed.

(** What the store holds after a Create's write. *)
Lemma stored_lookup ts (data : gmap string value) key :
  stamp ts (create_payload data) !! key
  = if bool_decide (key = "updated_at") then Some (VTime ts)
    else if bool_decide (key = "created_at")
         then Some (default (VTime ts) (data !! "created_at"))
         else data !! key.
Proof.
  unfold stamp. rewrite lookup_fmap, create_payload_lookup.
  repeat case_bool_decide; simpl; [done| |].
  - by destruct (data !! "created_at").
  - by destruct (data !! key).
Qed.

Lemma _create_doc_quiet col data doc_id w :
  faults w = [] ->
  is_Some (firebase.truthy doc_id)
  ∨ docs w !! document col (assigned_id doc_id w) = None ->
  let doc_ref := document col (assigned_id doc_id w) in
  firebase._create_doc col data doc_id true w
  = (Ok doc_ref,
     mkWorld (<[doc_ref := stamp (server_clock w) (create_payload data)]> (docs w))
       (server_clock w + 1) []
       (match firebase.truthy doc_id with
        | Some _ => auto_ids w
        | None => S (auto_ids w)
        end)
       (log w ++ [write_rpc doc_id doc_ref (create_payload data)])
       (client_clock w)).
Proof.
  intros Hq Hfree. unfold firebase._create_doc, assigned_id, write_rpc in *.
  fold (create_payload data).
  destruct (firebase.truthy doc_id) as [i|]; simpl.
  - unfold try_except, bind, doc_set, bind, rpc, apply_writes, ret, with_docs.
    rewrite Hq. reflexivity.
  - destruct Hfree as [[? ?]|Hfree]; [done|].
    unfold try_except, col_add, bind, document_auto, doc_create, bind, rpc,
      apply_writes, ret, with_docs.
    rewrite Hq. simpl. rewrite Hfree. reflexivity.
Qed.

Lemma _get_doc_quiet doc_ref cls w d m :
  faults w = [] ->
  docs w !! doc_ref = Some d ->
  construct cls (client_clock w) (<["id" := VStr (ref_id doc_ref)]> d) = Some m ->
  firebase._get_doc doc_ref cls w
  = (Ok (Some m),
     mkWorld (docs w) (server_clock w) [] (auto_ids w)
       (log w ++ [RpcGet doc_ref]) (client_clock w)).
Proof.
  intros Hq Hd Hc.
  unfold firebase._get_doc, try_except, bind, doc_get, bind, rpc.
  rewrite Hq. simpl. rewrite Hd.
  unfold firebase._doc_to_model, bind, now, ret. simpl. by rewrite Hc.
Qed.

(** Every Create and every Get of the accessor has the common shape. *)
Lemma create_shape t m doc_id :
  create t m doc_id
  = create_in (target_col t) (target_cls t) (target_meta t) (target_msg t)
      m doc_id.
Proof. destruct t; reflexivity. Qed.

Lemma get_shape t g doc_id w :
  get t = Some g ->
  g doc_id w = get_in (target_col t) (target_cls t) (target_meta t) doc_id w.
Proof.
  destruct t; intros [= <-]; try reflexivity;
    unfold get_in, firebase.get_organization, firebase.get_user, bind; simpl;
    by destruct (firebase._get_doc _ _ w) as [[[?|]|?] ?].
Qed.

End effects.

(* ===================================================================== *)
(** ** Create followed by its read-back *)
(* ===================================================================== *)

Section create_readback.

Lemma readback_lookup ts i m key :
  readback ts i m !! key
  = if bool_decide (key = "id") then Some (VStr i)
    else if bool_decide (key = "updated_at") then Some (VTime ts)
    else if bool_decide (key = "created_at")
         then Some (default (VTime ts) (nonnull (m_attrs m !! "created_at")))
         else nonnull (m_attrs m !! key).
Proof.
  unfold readback. destruct (decide (key = "id")) as [->|Hid].
  { by rewrite lookup_insert_eq. }
  rewrite lookup_insert_ne by done.
  rewrite (bool_decide_eq_false_2 (key = "id")) by done.
  rewrite stored_lookup, !_model_to_dict_lookup.
  by rewrite (bool_decide_eq_false_2 (key = "id")) by done.
Qed.

Lemma str_field_valid f s :
  declaration_ok f = true -> f_name f ∈ "id" :: ancestor_keys ->
  value_valid f (VStr s) = true.
Proof.
  intros Hd Hn. unfold declaration_ok in Hd.
  apply andb_prop in Hd as [[Hd _]%andb_prop _].
  rewrite bool_decide_eq_true_2 in Hd by done.
  unfold value_valid. simpl. destruct (f_type f); try done.
  apply andb_prop in Hd as [_ Hge]. unfold ge0_ok. by destruct (f_ge0 f).
Qed.

Lemma time_field_valid f ts :
  declaration_ok f = true -> f_name f ∈ ["created_at"; "updated_at"] ->
  value_valid f (VTime ts) = true.
Proof.
  intros Hd Hn. unfold declaration_ok in Hd.
  apply andb_prop in Hd as [[_ Hd]%andb_prop _].
  rewrite bool_decide_eq_true_2 in Hd by done.
  unfold value_valid. simpl. destruct (f_type f); try done.
  apply andb_prop in Hd as [_ Hge]. unfold ge0_ok. by destruct (f_ge0 f).
Qed.

Lemma optional_has_default t data f :
  declaration_ok f = true -> f_optional f = true ->
  data !! f_name f = None ->
  ∃ d, validate_field t data f = Some d.
Proof.
  intros Hd Ho Hl. unfold declaration_ok in Hd. apply andb_prop in Hd as [_ Hd].
  unfold validate_field. rewrite Hl.
  destruct (f_default f); [by rewrite Ho in Hd|by eexists..].
Qed.

(** Validation of the read-back document, field by field. *)
Lemma readback_validate m t ts i f :
  valid_model m = true -> f ∈ schema (m_cls m) ->
  ∃ v, validate_field t (readback ts i m) f = Some v
    ∧ (f_name f = "id" -> v = VStr i)
    ∧ (f_name f = "updated_at" -> v = VTime ts)
    ∧ (f_name f = "created_at" ->
         v = default (VTime ts) (nonnull (m_attrs m !! "created_at")))
    ∧ (∀ x, f_name f ≠ "id" -> f_name f ≠ "updated_at" ->
         m_attrs m !! f_name f = Some x -> is_none x = false -> v = x).
Proof.
  intros Hm Hf. pose proof (declarations_ok _ _ Hf) as Hd.
  destruct (valid_model_field _ _ Hm Hf) as (x & Hx & Hvx).
  pose proof (readback_lookup ts i m (f_name f)) as Hl.
  destruct (decide (f_name f = "id")) as [Hid|Hid].
  { rewrite bool_decide_eq_true_2 in Hl by done.
    exists (VStr i). split.
    - apply validate_field_of_valid; [done|].
      apply str_field_valid; [done|]. rewrite Hid. by left.
    - repeat split; try done; rewrite Hid; done. }
  rewrite (bool_decide_eq_false_2 _ Hid) in Hl.
  destruct (decide (f_name f = "updated_at")) as [Hu|Hu].
  { rewrite bool_decide_eq_true_2 in Hl by done.
    exists (VTime ts). split.
    - apply validate_field_of_valid; [done|].
      apply time_field_valid; [done|]. rewrite Hu. by right; left.
    - repeat split; try done; rewrite Hu; done. }
  rewrite (bool_decide_eq_false_2 _ Hu) in Hl.
  destruct (decide (f_name f = "created_at")) as [Hc|Hc].
  { rewrite bool_decide_eq_true_2 in Hl by done.
    eexists. split.
    - apply validate_field_of_valid; [exact Hl|].
      rewrite <- Hc, Hx. simpl. destruct (is_none x) eqn:En; simpl; [|done].
      apply time_field_valid; [done|]. rewrite Hc. by left.
    - repeat split; try done.
      intros y _ _ Hy Hn. rewrite <- Hc, Hy. simpl. by rewrite Hn. }
  rewrite (bool_decide_eq_false_2 _ Hc), Hx in Hl. simpl in Hl.
  destruct (is_none x) eqn:En.
  - destruct x; try discriminate En. simpl in Hvx.
    destruct (optional_has_default t _ _ Hd Hvx Hl) as [d Hdef].
    exists d. split; [done|].
    + repeat split; try done. intros y _ _ Hy Hn.
      rewrite Hx in Hy. injection Hy as <-. discriminate Hn.
  - exists x. split; [by apply validate_field_of_valid|].
    repeat split; try done. intros y _ _ Hy _. congruence.
Qed.

(** The read-back of a valid value parses, and what it parses to. *)
Lemma readback_construct m t ts i :
  valid_model m = true ->
  ∃ m', construct (m_cls m) t (readback ts i m) = Some m'
    ∧ m_attrs m' !! "id" = Some (VStr i)
    ∧ m_attrs m' !! "updated_at" = Some (VTime ts)
    ∧ m_attrs m' !! "created_at"
        = Some (default (VTime ts) (nonnull (m_attrs m !! "created_at")))
    ∧ (∀ key x, key ≠ "id" -> key ≠ "updated_at" ->
         m_attrs m !! key = Some x -> is_none x = false ->
         m_attrs m' !! key = Some x).
Proof.
  intros Hm.
  destruct (validate_fields_is_Some t (readback ts i m) (schema (m_cls m)))
    as [r Hr].
  { intros f Hf. destruct (readback_validate m t ts i f Hm Hf) as (v & -> & _).
    by eexists. }
  assert (construct (m_cls m) t (readback ts i m) = Some (mkModel (m_cls m) r))
    as Hc by (unfold construct; by rewrite Hr).
  exists (mkModel (m_cls m) r). split; [done|].
  assert (∀ key, key ∈ field_names (m_cls m) ->
            ∃ f, f ∈ schema (m_cls m) ∧ f_name f = key
                 ∧ r !! key = validate_field t (readback ts i m) f) as Hfield.
  { intros key (f & Hf & <-)%field_of_name. exists f. repeat split; [done|].
    by apply (construct_lookup _ _ _ _ _ Hc). }
  assert (∀ key, key ∈ ["id"; "updated_at"; "created_at"] ->
            key ∈ field_names (m_cls m)) as Hbase.
  { intros key Hk. unfold field_names, schema. rewrite fmap_app.
    apply elem_of_app. left. simpl.
    apply elem_of_cons in Hk as [->|Hk]; [by left|].
    apply elem_of_cons in Hk as [->|Hk]; [by do 4 right; left|].
    apply elem_of_cons in Hk as [->|Hk]; [by do 3 right; left|].
    by apply elem_of_nil in Hk. }
  simpl. repeat split.
  - destruct (Hfield "id") as (f & Hf & Hn & ->); [apply Hbase; by left|].
    destruct (readback_validate m t ts i f Hm Hf) as (v & -> & H1 & _).
    by rewrite H1.
  - destruct (Hfield "updated_at") as (f & Hf & Hn & ->);
      [apply Hbase; by right; left|].
    destruct (readback_validate m t ts i f Hm Hf) as (v & -> & _ & H2 & _).
    by rewrite H2.
  - destruct (Hfield "created_at") as (f & Hf & Hn & ->);
      [apply Hbase; by do 2 right; left|].
    destruct (readback_validate m t ts i f Hm Hf)
      as (v & -> & _ & _ & H3 & _).
    by rewrite H3.
  - intros key x Hid Hu Hx Hn.
    destruct (Hfield key) as (f & Hf & <- & ->).
    { apply (valid_model_dom _ _ Hm). by eexists. }
    destruct (readback_validate m t ts i f Hm Hf)
      as (v & -> & _ & _ & _ & H4).
    by rewrite (H4 x).
Qed.

(** A Create on a world without store failures: the write, the
    read-back, and the entity returned. *)
Lemma create_in_quiet col cls meta msg m doc_id w :
  valid_model m = true -> m_cls m = cls -> faults w = [] ->
  is_Some (firebase.truthy doc_id)
  ∨ docs w !! document col (assigned_id doc_id w) = None ->
  let doc_ref := document col (assigned_id doc_id w) in
  let payload := create_payload (firebase._model_to_dict m false) in
  ∃ m',
    construct cls (client_clock w)
      (readback (server_clock w) (assigned_id doc_id w) m) = Some m'
    ∧ create_in col cls meta msg m doc_id w
      = (Ok (firebase._attach_metadata m' meta),
         mkWorld (<[doc_ref := stamp (server_clock w) payload]> (docs w))
           (server_clock w + 1) []
           (match firebase.truthy doc_id with
            | Some _ => auto_ids w
            | None => S (auto_ids w)
            end)
           (log w ++ [write_rpc doc_id doc_ref payload; RpcGet doc_ref])
           (client_clock w)).
Proof.
  intros Hm Hcls Hq Hfree doc_ref payload. subst cls.
  destruct (readback_construct m (client_clock w) (server_clock w)
              (assigned_id doc_id w) Hm) as (m' & Hc & _).
  exists m'. split; [done|].
  unfold create_in.
  erewrite bind_Ok; [|by apply _create_doc_quiet].
  erewrite bind_Ok.
  2:{ eapply _get_doc_quiet; simpl; [done|apply lookup_insert_eq|].
      rewrite ref_id_document. exact Hc. }
  simpl. unfold ret. by rewrite <- app_assoc.
Qed.

(** A Get on a world without store failures. *)
Lemma get_in_quiet col cls meta doc_id w d m :
  faults w = [] ->
  docs w !! document col doc_id = Some d ->
  construct cls (client_clock w) (<["id" := VStr doc_id]> d) = Some m ->
  get_in col cls meta doc_id w
  = (Ok (Some (firebase._attach_metadata m meta)),
     mkWorld (docs w) (server_clock w) [] (auto_ids w)
       (log w ++ [RpcGet (document col doc_id)]) (client_clock w)).
Proof.
  intros Hq Hd Hc. unfold get_in.
  erewrite bind_Ok.
  2:{ eapply _get_doc_quiet; [done..|]. rewrite ref_id_document. exact Hc. }
  reflexivity.
Qed.

End create_readback.

(* ===================================================================== *)
(** ** Single-document Create: payload, timestamps, round trip *)
(* ===================================================================== *)

Lemma getattr_nonnull m key :
  nonnull (m_attrs m !! key)
  = if is_none (getattr m key) then None else Some (getattr m key).
Proof. unfold getattr. by destruct (m_attrs m !! key) as [v|]. Qed.

Lemma _build_firestore_model_created_at k data w b w' :
  index._build_firestore_model k data w = (Ok b, w') ->
  getattr b "created_at" = VNone ∧ valid_model b = true ∧ m_cls b = k.
Proof.
  unfold index._build_firestore_model, bind, now, ret, raise. simpl.
  destruct (construct k (client_clock w) data) as [m|] eqn:Ec; [|done].
  intros [= <- <-]. destruct (construct_valid _ _ _ _ Ec) as [Hm Hk].
  assert (∀ key, key ∈ ["id"; "created_at"; "updated_at"] ->
            hasattr m key = true
            ∧ ∀ f, f ∈ schema (m_cls m) -> f_name f = key ->
                   value_valid f VNone = true) as Hbase.
  { intros key Hkey. split.
    - apply hasattr_true. unfold field_names, schema. rewrite fmap_app.
      apply elem_of_app. left. simpl.
      apply elem_of_cons in Hkey as [->|Hkey]; [by left|].
      apply elem_of_cons in Hkey as [->|Hkey]; [by do 3 right; left|].
      apply elem_of_cons in Hkey as [->|Hkey]; [by do 4 right; left|].
      by apply elem_of_nil in Hkey.
    - intros f Hf Hn. pose proof (declarations_ok _ _ Hf) as Hd.
      unfold declaration_ok in Hd.
      apply andb_prop in Hd as [[H1 H2]%andb_prop _]. simpl.
      apply elem_of_cons in Hkey as [->|Hkey].
      + rewrite bool_decide_eq_true_2 in H1 by (rewrite Hn; by left).
        destruct (f_type f); try done. by apply andb_prop in H1 as [? _].
      + rewrite bool_decide_eq_true_2 in H2.
        * destruct (f_type f); try done. by apply andb_prop in H2 as [? _].
        * rewrite Hn. apply elem_of_cons in Hkey as [->|Hkey];
            [by left|by right]. }
  assert (valid_model (setattr m "id" VNone) = true) as Hm1.
  { apply setattr_valid; [done|by apply hasattr_true, Hbase; left|].
    apply (Hbase "id"). by left. }
  assert (valid_model (setattr (setattr m "id" VNone) "created_at" VNone) = true)
    as Hm2.
  { apply setattr_valid; [done| |].
    - apply (hasattr_true m). apply Hbase. by right; left.
    - apply (Hbase "created_at"). by right; left. }
  split; [|split; [|done]].
  - unfold getattr, setattr. simpl.
    rewrite lookup_insert_ne by done. by rewrite lookup_insert_eq.
  - apply setattr_valid; [done| |].
    + apply (hasattr_true m). apply Hbase. by do 2 right; left.
    + apply (Hbase "updated_at"). by do 2 right; left.
Qed.



(** C4 (amended).  For an entity persisted through a single-document
    Create, [updated_at] is assigned by the store; [created_at] is
    assigned by the store when the model carries none (as every model
    built by the REST create handlers), and it then equals [updated_at];
    a [created_at] that the model carries is stored as the client gave
    it. *)
Theorem C4_store_stamps_updated_at_and_missing_created_at t m doc_id w :
  valid_model m = true -> m_cls m = target_cls t -> faults w = [] ->
  is_Some (firebase.truthy doc_id)
  ∨ docs w !! document (target_col t) (assigned_id doc_id w) = None ->
  let doc_ref := document (target_col t) (assigned_id doc_id w) in
  (∃ d, docs (after (create t m doc_id) w) !! doc_ref = Some d
     ∧ d !! "updated_at" = Some (VTime (server_clock w))
     ∧ (getattr m "created_at" = VNone ->
          d !! "created_at" = Some (VTime (server_clock w))
          ∧ d !! "created_at" = d !! "updated_at")
     ∧ (getattr m "created_at" ≠ VNone ->
          d !! "created_at" = Some (getattr m "created_at")))
  ∧ (∀ k data w1 b w2,
       index._build_firestore_model k data w1 = (Ok b, w2) ->
       getattr b "created_at" = VNone).
Proof.
  intros Hm Hcls Hq Hfree doc_ref. split.
  - destruct (create_in_quiet (target_col t) (target_cls t) (target_meta t)
                (target_msg t) m doc_id w Hm Hcls Hq Hfree) as (m' & Hc & Hrun).
    unfold after. rewrite create_shape, Hrun. simpl.
    eexists. split; [apply lookup_insert_eq|].
    rewrite !stored_lookup, _model_to_dict_lookup. simpl.
    rewrite getattr_nonnull.
    split; [done|]. split.
    + intros ->. by simpl.
    + intros Hne. destruct (getattr m "created_at"); done.
  - intros k data w1 b w2 H.
    by destruct (_build_firestore_model_created_at _ _ _ _ _ H) as [? _].
Qed.

Lemma C4_witness :
  let m := setattr (build Project [("name", VStr "Demo")] 100) "created_at" VNone in
  valid_model m = true
  ∧ ∃ d, docs (after (create (InProjects "org_1") m (Some "proj_1")) w0)
           !! ["organizations"; "org_1"; "projects"; "proj_1"] = Some d
       ∧ d !! "created_at" = Some (VTime 5)
       ∧ d !! "updated_at" = Some (VTime 5).
Proof.
  intros m. split; [by vm_compute|].
  destruct (C4_store_stamps_updated_at_and_missing_created_at
              (InProjects "org_1") m (Some "proj_1") w0)
    as [(d & Hd & Hu & Hc & _) _].
  - by vm_compute.
  - reflexivity.
  - reflexivity.
  - left. by eexists.
  - exists d. split; [exact Hd|]. split; [|exact Hu].
    apply Hc. reflexivity.
Defined.

Lemma C4_counterexample :
  let org := build Organization [("name", VStr "Acme")] 100 in
  ∃ d got,
    docs (after (firebase.create_organization org (Some "org_1")) w0)
      !! ["organizations"; "org_1"] = Some d
    ∧ getattr org "created_at" = VTime 100
    ∧ d !! "created_at" = Some (VTime 100)
    ∧ d !! "updated_at" = Some (VTime 5)
    ∧ outcome (firebase.get_organization "org_1")
        (after (firebase.create_organization org (Some "org_1")) w0)
      = Ok (Some got)
    ∧ getattr got "created_at" = VTime 100
    ∧ getattr got "updated_at" = VTime 5
    ∧ ¬ (100 ≤ 5).
Proof.
  intros org. eexists _, _.
  split; [by vm_compute|]. split; [by vm_compute|].
  split; [by vm_compute|]. split; [by vm_compute|].
  split; [by vm_compute|]. split; [by vm_compute|].
  split; [by vm_compute|]. lia.
Qed.

Lemma ancestor_key_not_envelope key :
  key ∈ ancestor_keys ->
  key ≠ "id" ∧ key ≠ "created_at" ∧ key ≠ "updated_at".
Proof.
  unfold ancestor_keys. intros Hk.
  repeat (apply elem_of_cons in Hk as [->|Hk]; [done|]).
  by apply elem_of_nil in Hk.
Qed.

Lemma target_meta_not_envelope t key :
  key ∈ ["id"; "created_at"; "updated_at"] -> key ∉ (target_meta t).*1.
Proof.
  intros Hk Hin.
  assert (key ∈ ancestor_keys) as Ha.
  { pose proof (target_meta_keys t) as H. rewrite Forall_forall in H.
    apply list_elem_of_fmap in Hin as ([k v] & -> & Hin). by apply (H _ Hin). }
  unfold ancestor_keys in Ha.
  repeat (apply elem_of_cons in Hk as [->|Hk];
          [by repeat (apply elem_of_cons in Ha as [?|Ha]; [done|]);
              apply elem_of_nil in Ha|]).
  by apply elem_of_nil in Hk.
Qed.

(** C6 (amended).  Create followed by Get on the assigned id returns the
    entity that Create returned; it equals the value created on every
    non-null field other than [id], [updated_at] and the ancestor
    identifiers that the path supplies; its [id] is the assigned id, its
    [updated_at] the store's time of the write, its [created_at] the one
    the value carried, or the store's time of the write when it carried
    none; the ancestor identifiers of the path that are fields of the
    class are set from the path. *)
Theorem C6_create_then_get t g m doc_id w :
  valid_model m = true -> m_cls m = target_cls t -> get t = Some g ->
  faults w = [] ->
  is_Some (firebase.truthy doc_id)
  ∨ docs w !! document (target_col t) (assigned_id doc_id w) = None ->
  let i := assigned_id doc_id w in
  ∃ e,
    outcome (create t m doc_id) w = Ok e
    ∧ outcome (g i) (after (create t m doc_id) w) = Ok (Some e)
    ∧ getattr e "id" = VStr i
    ∧ getattr e "updated_at" = VTime (server_clock w)
    ∧ getattr e "created_at"
      = (if is_none (getattr m "created_at") then VTime (server_clock w)
         else getattr m "created_at")
    ∧ (∀ key v, m_attrs m !! key = Some v -> is_none v = false ->
         key ≠ "id" -> key ≠ "updated_at" -> key ∉ (target_meta t).*1 ->
         m_attrs e !! key = Some v)
    ∧ (∀ key val, (key, Some val) ∈ target_meta t ->
         key ∈ field_names (target_cls t) -> getattr e key = VStr val).
Proof.
  intros Hm Hcls Hg Hq Hfree i.
  destruct (create_in_quiet (target_col t) (target_cls t) (target_meta t)
              (target_msg t) m doc_id w Hm Hcls Hq Hfree) as (m' & Hc & Hrun).
  destruct (readback_construct m (client_clock w) (server_clock w) i Hm)
    as (m'' & Hc' & Hid & Hu & Hcr & Hother).
  rewrite Hcls in Hc'. fold i in Hc. rewrite Hc in Hc'. injection Hc' as <-.
  exists (firebase._attach_metadata m' (target_meta t)).
  unfold after, outcome. rewrite create_shape, Hrun. simpl.
  split; [done|]. split.
  { rewrite (get_shape t g i _ Hg).
    erewrite get_in_quiet; simpl; [done|done|apply lookup_insert_eq|exact Hc]. }
  unfold getattr.
  rewrite !attach_lookup_other by (apply target_meta_not_envelope;
    repeat first [by left | right]).
  rewrite Hid, Hu, Hcr. simpl.
  split; [done|]. split; [done|].
  split; [by destruct (m_attrs m !! "created_at") as [[]|]|]. split.
  - intros key v Hv Hn Hk1 Hk2 Hk3. rewrite attach_lookup_other by done.
    by apply Hother.
  - intros key val Hin Hfield.
    rewrite (attach_lookup_in _ _ key val); [done|apply target_meta_NoDup|done|].
    apply hasattr_true. destruct (construct_valid _ _ _ _ Hc) as [_ ->].
    done.
Qed.

Lemma C6_witness :
  let m := build Project [("name", VStr "Demo"); ("description", VStr "d")] 3 in
  valid_model m = true
  ∧ ∃ e,
      outcome (firebase.get_project "org_1" "proj_1")
        (after (create (InProjects "org_1") m (Some "proj_1")) w0)
      = Ok (Some e)
      ∧ m_attrs e !! "description" = Some (VStr "d")
      ∧ getattr e "org_id" = VStr "org_1".
Proof.
  intros m. split; [by vm_compute|].
  destruct (C6_create_then_get (InProjects "org_1")
              (firebase.get_project "org_1") m (Some "proj_1") w0)
    as (e & _ & Hget & _ & _ & _ & Hsame & Hmeta).
  - by vm_compute.
  - reflexivity.
  - reflexivity.
  - reflexivity.
  - left. by eexists.
  - exists e. split; [exact Hget|]. split.
    + apply Hsame; [by vm_compute|done|done|done|].
      simpl. intros [=]%list_elem_of_singleton.
    + apply (Hmeta "org_id" "org_1"); [by left|].
      apply (bool_decide_unpack _). by vm_compute.
Defined.

Lemma C6_counterexample :
  let m := build Project [("name", VStr "Demo"); ("org_id", VStr "other")] 100 in
  valid_model m = true
  ∧ ∃ e,
      outcome (firebase.get_project "org_1" "proj_1")
        (after (firebase.create_project "org_1" m (Some "proj_1")) w0)
      = Ok (Some e)
      ∧ getattr m "org_id" = VStr "other"
      ∧ getattr e "org_id" = VStr "org_1"
      ∧ getattr e "created_at" = VTime 100
      ∧ getattr e "updated_at" = VTime 5
      ∧ ¬ (100 ≤ 5).
Proof.
  intros m. split; [by vm_compute|]. eexists.
  split; [by vm_compute|]. split; [by vm_compute|].
  split; [by vm_compute|]. split; [by vm_compute|].
  split; [by vm_compute|]. lia.
Qed.

(** C5 (amended).  At write time a create operation persists each
    ancestor identifier exactly when the model it is given carries it
    non-null, with the value the model carries (the models of the REST
    create handlers carry the identifiers of the URL, which
    [_apply_metadata] sets before the write); the entity returned has the
    identifiers of the path that are fields of its class attached. *)
Theorem C5_create_persists_the_ancestor_ids_the_model_carries t m doc_id w :
  valid_model m = true -> m_cls m = target_cls t -> faults w = [] ->
  is_Some (firebase.truthy doc_id)
  ∨ docs w !! document (target_col t) (assigned_id doc_id w) = None ->
  let doc_ref := document (target_col t) (assigned_id doc_id w) in
  (∃ d e,
     docs (after (create t m doc_id) w) !! doc_ref = Some d
     ∧ (∀ key, key ∈ ancestor_keys -> d !! key = nonnull (m_attrs m !! key))
     ∧ outcome (create t m doc_id) w = Ok e
     ∧ (∀ key val, (key, Some val) ∈ target_meta t ->
          key ∈ field_names (target_cls t) -> getattr e key = VStr val))
  ∧ (∀ b meta key val,
       NoDup meta.*1 -> (key, Some val) ∈ meta -> hasattr b key = true ->
       getattr (index._apply_metadata b meta) key = VStr val).
Proof.
  intros Hm Hcls Hq Hfree doc_ref. split.
  - destruct (create_in_quiet (target_col t) (target_cls t) (target_meta t)
                (target_msg t) m doc_id w Hm Hcls Hq Hfree) as (m' & Hc & Hrun).
    unfold after, outcome. rewrite create_shape, Hrun. simpl.
    eexists _, _. split; [apply lookup_insert_eq|].
    split; [|split; [done|]].
    + intros key Hk. destruct (ancestor_key_not_envelope _ Hk) as (H1 & H2 & H3).
      rewrite stored_lookup.
      rewrite (bool_decide_eq_false_2 (key = "updated_at")) by done.
      rewrite (bool_decide_eq_false_2 (key = "created_at")) by done.
      rewrite _model_to_dict_lookup. by rewrite bool_decide_eq_false_2.
    + intros key val Hin Hfield. unfold getattr.
      rewrite (attach_lookup_in _ _ key val);
        [done|apply target_meta_NoDup|done|].
      apply hasattr_true. by destruct (construct_valid _ _ _ _ Hc) as [_ ->].
  - intros b meta key val Hnd Hin Hh. unfold getattr.
    by rewrite _apply_metadata_eq, (attach_lookup_in _ _ key val).
Qed.

Lemma C5_witness :
  let m := build Variant [("image_url", VStr "gs://example/v1.png")] 100 in
  valid_model m = true
  ∧ ∃ d, docs (after (create (InVariants "org_1" "proj_1" "asset_1" "gen_1")
                        m (Some "var_1")) w0)
           !! ["organizations"; "org_1"; "projects"; "proj_1"; "assets";
               "asset_1"; "generations"; "gen_1"; "variants"; "var_1"]
         = Some d
       ∧ d !! "org_id" = None.
Proof.
  intros m. split; [by vm_compute|].
  destruct (C5_create_persists_the_ancestor_ids_the_model_carries
              (InVariants "org_1" "proj_1" "asset_1" "gen_1") m
              (Some "var_1") w0)
    as [(d & e & Hd & Hkeys & _) _].
  - by vm_compute.
  - reflexivity.
  - reflexivity.
  - left. by eexists.
  - exists d. split; [exact Hd|].
    rewrite (Hkeys "org_id") by (by left). by vm_compute.
Defined.

Lemma C5_counterexample :
  let payload : index.Payload :=
    {[ "name" := VStr "Demo"; "id" := VStr "proj_1" ]} in
  ∃ d,
    docs (after (index.create_project "org_1" payload) w0)
      !! ["organizations"; "org_1"; "projects"; "proj_1"] = Some d
    ∧ d !! "org_id" = Some (VStr "org_1").
Proof. intros payload. eexists. split; by vm_compute. Qed.

(* ===================================================================== *)
(** ** Frame reasoning: what a computation leaves in place *)
(* ===================================================================== *)

Section frame.
Context {R : World -> World -> Prop}.
Hypothesis R_refl : ∀ w, R w w.
Hypothesis R_trans : ∀ w1 w2 w3, R w1 w2 -> R w2 w3 -> R w1 w3.

Lemma preserves_ret {A} (a : A) : preserves R (ret a).
Proof. intros w. apply R_refl. Qed.

Lemma preserves_raise {A} e : preserves R (raise (A:=A) e).
Proof. intros w. apply R_refl. Qed.


Lemma preserves_bind {A B} (c : M A) (k : A -> M B) :
  preserves R c -> (∀ a, preserves R (k a)) -> preserves R (bind c k).
Proof.
  intros Hc Hk w. unfold bind. specialize (Hc w).
  destruct (c w) as [[a|e] w1]; simpl in *; [|done].
  eapply R_trans; [exact Hc|apply Hk].
Qed.

Lemma preserves_try {A} (c : M A) h :
  preserves R c -> (∀ e, preserves R (h e)) -> preserves R (try_except c h).
Proof.
  intros Hc Hh w. unfold try_except. specialize (Hc w).
  destruct (c w) as [[a|e] w1]; simpl in *; [done|].
  eapply R_trans; [exact Hc|apply Hh].
Qed.
End frame.

(** A read changes nothing but the log and the failure schedule. *)
Lemma _get_doc_world doc_ref cls w :
  ∃ fs, (firebase._get_doc doc_ref cls w).2 = answered w (RpcGet doc_ref) fs.
Proof.
  unfold firebase._get_doc, try_except, bind, doc_get, bind, rpc, answered.
  destruct (faults w) as [|[|] fs]; simpl; try by eexists.
  - unfold firebase._doc_to_model, bind, now, ret, raise. simpl.
    destruct (docs w !! doc_ref); simpl; [|by eexists].
    destruct (construct _ _ _); by eexists.
  - unfold firebase._doc_to_model, bind, now, ret, raise. simpl.
    destruct (docs w !! doc_ref); simpl; [|by eexists].
    destruct (construct _ _ _); by eexists.
Qed.

(** *** The effect of a PATCH *)

Lemma no_field_cleared_refl ds : no_field_cleared ds ds.
Proof. intros p d k v Hd Hk Hv. eauto. Qed.

Lemma no_field_cleared_trans ds1 ds2 ds3 :
  no_field_cleared ds1 ds2 -> no_field_cleared ds2 ds3 ->
  no_field_cleared ds1 ds3.
Proof.
  intros H12 H23 p d k v Hd Hk Hv.
  destruct (H12 _ _ _ _ Hd Hk Hv) as (d' & v' & Hd' & Hk' & Hv').
  by apply (H23 _ _ _ _ Hd' Hk' Hv').
Qed.

Lemma patch_effect_refl u w : patch_effect u w w.
Proof.
  split; [apply no_field_cleared_refl|].
  exists []. by rewrite app_nil_r.
Qed.

Lemma patch_effect_trans u w1 w2 w3 :
  patch_effect u w1 w2 -> patch_effect u w2 w3 -> patch_effect u w1 w3.
Proof.
  intros [H12 (c1 & Hl1 & Hc1)] [H23 (c2 & Hl2 & Hc2)]. split.
  - by eapply no_field_cleared_trans.
  - exists (c1 ++ c2). rewrite Hl2, Hl1, app_assoc. split; [done|].
    by apply Forall_app.
Qed.

Lemma _get_doc_patch_effect u doc_ref cls :
  preserves (patch_effect u) (firebase._get_doc doc_ref cls).
Proof.
  intros w. destruct (_get_doc_world doc_ref cls w) as [fs ->].
  split; [apply no_field_cleared_refl|].
  exists [RpcGet doc_ref]. split; [done|]. by repeat constructor.
Qed.

(** An update that carries no null cannot clear a stored field. *)
Lemma _update_doc_patch_effect u doc_ref :
  (∀ k v, u !! k = Some v -> is_none v = false) ->
  preserves (patch_effect u) (firebase._update_doc doc_ref u true).
Proof.
  intros Hu w.
  set (payload := <["updated_at" := SERVER_TIMESTAMP]> (Plain <$> u)
                  : gmap string field_write).
  assert (∀ ds, no_field_cleared (docs w) ds ->
            ∀ fs ts, patch_effect u w
                       (mkWorld ds ts fs (auto_ids w)
                          (log w ++ [RpcUpdate doc_ref payload])
                          (client_clock w))) as Hlog.
  { intros ds Hds fs ts. split; [done|].
    exists [RpcUpdate doc_ref payload]. split; [done|]. by repeat constructor. }
  assert (∀ old, docs w !! doc_ref = Some old ->
            no_field_cleared (docs w)
              (<[doc_ref := stamp (server_clock w) payload ∪ old]> (docs w)))
    as Hmerge.
  { intros old Hold p d k v Hd Hk Hv.
    destruct (decide (p = doc_ref)) as [->|Hne].
    - rewrite Hold in Hd. injection Hd as <-.
      rewrite lookup_insert_eq.
      destruct (stamp (server_clock w) payload !! k) as [v'|] eqn:Es.
      + exists (stamp (server_clock w) payload ∪ old), v'.
        split; [done|]. split; [by apply lookup_union_Some_l|].
        unfold stamp, payload in Es. rewrite lookup_fmap in Es.
        destruct (decide (k = "updated_at")) as [->|Hk'].
        * rewrite lookup_insert_eq in Es. by injection Es as <-.
        * rewrite lookup_insert_ne, lookup_fmap in Es by done.
          destruct (u !! k) as [x|] eqn:Ex; [|done].
          injection Es as <-. by apply (Hu k).
      + exists (stamp (server_clock w) payload ∪ old), v.
        split; [done|]. split; [|done].
        rewrite lookup_union_r by done. done.
    - rewrite lookup_insert_ne by done. eauto. }
  unfold firebase._update_doc, try_except, bind, doc_update, bind, rpc, raise.
  fold payload.
  destruct (faults w) as [|[|] fs]; simpl;
    try (apply Hlog, no_field_cleared_refl);
    (destruct (docs w !! doc_ref) as [old|] eqn:Eo; simpl;
     [apply Hlog, Hmerge; first [exact Eo|reflexivity]
     |apply Hlog, no_field_cleared_refl]).
Qed.

Lemma payload_dict_nonnull (payload : index.Payload) k v :
  index.payload_dict payload !! k = Some v -> is_none v = false.
Proof.
  unfold index.payload_dict. rewrite exclude_none_lookup.
  by intros [_ ?]%nonnull_Some.
Qed.

(** A PATCH handler either rejects the body at once or goes on with its
    non-null fields. *)
Lemma _require_updates_bind {A} payload (k : gmap string value -> M A) w :
  bind (index._require_updates payload) k w
  = if bool_decide (index.payload_dict payload = ∅)
    then (Raise (HTTPException 400 "No fields provided for update."), w)
    else k (index.payload_dict payload) w.
Proof.
  unfold bind, index._require_updates. by case_bool_decide.
Qed.

Create HintDb handlers.

#[local] Hint Unfold
  index.update_organization index.update_project index.update_asset
  index.update_generation index.update_variant index.update_theme
  index.update_concept_image index.update_user
  index.get_organization index.get_project index.get_asset
  index.get_generation index.get_variant index.get_theme
  index.get_concept_image index.get_user
  index.except_FirestoreError index.found_or_404 index.assert_not_None
  firebase.call_undefined
  firebase.get_organization firebase.get_project firebase.get_asset
  firebase.get_generation firebase.get_variant firebase.get_user
  firebase.update_organization firebase.update_project firebase.update_asset
  firebase.update_generation : handlers.

Ltac frame_patch Hu :=
  repeat first
    [ apply (preserves_ret (patch_effect_refl _))
    | apply (preserves_raise (patch_effect_refl _))
    | apply _get_doc_patch_effect
    | apply (_update_doc_patch_effect _ _ Hu)
    | apply (preserves_bind (patch_effect_trans _));
      [|intros ?]
    | apply (preserves_try (patch_effect_trans _));
      [|intros ?]
    | match goal with
      | |- preserves _ (match ?x with _ => _ end) => destruct x
      end ].

Lemma patch_preserves p payload w :
  patch_effect (index.payload_dict payload) w (after (patch p payload) w).
Proof.
  pose proof (payload_dict_nonnull payload) as Hu.
  unfold after. destruct p; unfold patch; autounfold with handlers;
    rewrite _require_updates_bind; (case_bool_decide;
    [apply patch_effect_refl|]);
    match goal with
    | |- patch_effect ?u ?w (?c ?w).2 =>
        revert w; change (preserves (patch_effect u) c)
    end;
    frame_patch Hu.
Qed.

(** C8.  For every PATCH handler, an update request whose field map is
    empty fails with HTTP 400, and the world is as it was: no store call
    has been made (the log is unchanged) and no document has changed. *)
Theorem C8_empty_update_rejected_before_any_store_call p payload w :
  index.payload_dict payload = ∅ ->
  patch p payload w
  = (Raise (HTTPException 400 "No fields provided for update."), w).
Proof.
  intros He.
  destruct p; unfold patch; autounfold with handlers;
    rewrite _require_updates_bind; by rewrite bool_decide_eq_true_2.
Qed.

Lemma C8_witness :
  index.payload_dict ∅ = ∅
  ∧ patch (PatchOrganization "org_1") ∅ w0
    = (Raise (HTTPException 400 "No fields provided for update."), w0).
Proof.
  assert (index.payload_dict ∅ = ∅) as H by (by vm_compute).
  split; [exact H|].
  exact (C8_empty_update_rejected_before_any_store_call
           (PatchOrganization "org_1") ∅ w0 H).
Defined.

(** C10.  For every PATCH handler, the update map is the request body
    without its null fields; the only calls the handler makes to the
    store are reads and an update that carries exactly that map (and the
    [updated_at] sentinel); no stored field that held a non-null value
    loses it; and a body whose fields are all null is rejected with
    HTTP 400, the world being as it was. *)
Theorem C10_patch_drops_null_fields p payload w :
  (∀ k, index.payload_dict payload !! k = nonnull (payload !! k))
  ∧ (∀ k, index.payload_dict payload !! k ≠ Some VNone)
  ∧ no_field_cleared (docs w) (docs (after (patch p payload) w))
  ∧ (∃ calls,
       log (after (patch p payload) w) = log w ++ calls
       ∧ Forall (patch_call (index.payload_dict payload)) calls)
  ∧ ((∀ k v, payload !! k = Some v -> v = VNone) ->
       patch p payload w
       = (Raise (HTTPException 400 "No fields provided for update."), w)).
Proof.
  split; [intros k; apply exclude_none_lookup|].
  split.
  { intros k Hk. by apply payload_dict_nonnull in Hk. }
  destruct (patch_preserves p payload w) as [Hd Hl].
  split; [done|]. split; [done|].
  intros Hnull.
  destruct p; unfold patch; autounfold with handlers;
    rewrite _require_updates_bind;
    by rewrite bool_decide_eq_true_2 by (by apply exclude_none_empty).
Qed.

Lemma C10_witness :
  let payload : gmap string value :=
    {[ "name" := VNone; "email" := VNone ]} in
  patch (PatchUser "user_1") payload w0
  = (Raise (HTTPException 400 "No fields provided for update."), w0).
Proof.
  intros payload.
  destruct (C10_patch_drops_null_fields (PatchUser "user_1") payload w0)
    as (_ & _ & _ & _ & H).
  apply H. intros k v.
  unfold payload.
  destruct (decide (k = "name")) as [->|H1].
  { rewrite lookup_insert_eq. by intros [= <-]. }
  rewrite lookup_insert_ne by done.
  destruct (decide (k = "email")) as [->|H2].
  { rewrite lookup_singleton_eq. by intros [= <-]. }
  by rewrite lookup_singleton_ne.
Defined.

(** A PATCH that goes through: the null field of the body is not sent,
    and the name of the organization stays as it was. *)
Example patch_organization_keeps_name :
  let payload : gmap string value :=
    {[ "name" := VNone; "plan_tier" := VStr "pro" ]} in
  let c := index.update_organization "org_1" payload in
  (∃ updated, outcome c w_org = Ok updated
     ∧ getattr updated "name" = VStr "Acme"
     ∧ getattr updated "plan_tier" = VStr "pro"
     ∧ getattr updated "updated_at" = VTime 6)
  ∧ log (after c w_org)
    = log w_org
      ++ [ RpcGet ["organizations"; "org_1"];
           RpcUpdate ["organizations"; "org_1"]
             {[ "plan_tier" := Plain (VStr "pro");
                "updated_at" := SERVER_TIMESTAMP ]};
           RpcGet ["organizations"; "org_1"] ].
Proof.
  intros payload c. split; [eexists; repeat split; by vm_compute|].
  by vm_compute.
Qed.

(* ===================================================================== *)
(** ** The compound create *)
(* ===================================================================== *)


















(* ===================================================================== *)
(** ** Listing variants and the scenario *)
(* ===================================================================== *)

Lemma for_each_doc_to_model cls snaps w ms w' :
  for_each (fun doc => firebase._doc_to_model doc cls) snaps w = (Ok ms, w') ->
  Forall (fun o => ∀ m, o = Some m -> ∃ t data, construct cls t data = Some m)
    ms.
Proof.
  revert w ms w'. induction snaps as [|s snaps IH]; intros w ms w' H.
  - injection H as <- <-. constructor.
  - simpl in H. unfold bind at 1 in H.
    destruct (firebase._doc_to_model s cls w) as [[o|e] w1] eqn:E1; [|done].
    unfold bind at 1 in H.
    destruct (for_each _ snaps w1) as [[os|e] w2] eqn:E2; [|done].
    injection H as <- <-. constructor; [|by eapply IH].
    intros m ->. unfold firebase._doc_to_model in E1.
    destruct (snap_data s) as [d|]; [|done].
    unfold bind, now, ret, raise in E1. simpl in E1.
    destruct (construct cls (client_clock w) _) as [m'|] eqn:Ec; [|done].
    injection E1 as <- <-. eauto.
Qed.

Lemma _query_to_models_constructed cls snaps w ms w' :
  firebase._query_to_models snaps cls w = (Ok ms, w') ->
  Forall (fun m => ∃ t data, construct cls t data = Some m) ms.
Proof.
  unfold firebase._query_to_models, bind, ret.
  destruct (for_each _ snaps w) as [[os|e] w1] eqn:E; [|done].
  intros [= <- <-]. apply for_each_doc_to_model in E.
  induction E as [|o os Ho _ IH]; [constructor|].
  destruct o as [m|]; simpl; [|done]. constructor; [by apply Ho|done].
Qed.

(** Every variant that [list_variants] returns has the organization and
    project of the path attached, and no [asset_id] or [generation_id]:
    the class has no such fields. *)
Lemma list_variants_metadata o p a g w vs w' :
  firebase.list_variants o p a g w = (Ok vs, w') ->
  Forall (variant_metadata o p) vs.
Proof.
  unfold firebase.list_variants, bind at 1.
  destruct (try_except _ _ w) as [[snaps|e] w1]; [|done].
  unfold bind, ret.
  destruct (firebase._query_to_models snaps Variant w1) as [[ms|e] w2] eqn:E;
    [|done].
  intros [= <- <-]. apply _query_to_models_constructed in E.
  apply Forall_fmap. eapply Forall_impl; [exact E|].
  intros m (t & data & Hc).
  destruct (construct_valid _ _ _ _ Hc) as [_ Hcls].
  set (meta := [("org_id", Some o); ("project_id", Some p);
                ("asset_id", Some a); ("generation_id", Some g)]).
  change (variant_metadata o p (firebase._attach_metadata m meta)).
  assert (NoDup meta.*1) as Hnd by (apply (bool_decide_unpack _); by vm_compute).
  assert (∀ key, hasattr m key = bool_decide (key ∈ field_names Variant))
    as Hh by (intros key; unfold hasattr; by rewrite Hcls).
  unfold variant_metadata. rewrite attach_cls, !hasattr_attach, !Hh.
  split; [done|].
  split; [apply (attach_lookup_in _ _ "org_id" o);
          [done|by left|by rewrite Hh]|].
  split; [apply (attach_lookup_in _ _ "project_id" p);
          [done|by right; left|by rewrite Hh]|].
  split; [by vm_compute|]. split; [by vm_compute|].
  rewrite !attach_not_field by (by rewrite Hh).
  split; apply (construct_lookup_None _ _ _ _ _ Hc);
    apply (bool_decide_unpack _); by vm_compute.
Qed.

Lemma C2_counterexample :
  ∃ gwv v,
    outcome scenario w0 = Ok (Some gwv)
    ∧ v ∈ variants gwv
    ∧ getattr v "asset_id" = VNone
    ∧ getattr v "generation_id" = VNone
    ∧ m_attrs v !! "asset_id" = None
    ∧ m_attrs v !! "generation_id" = None.
Proof.
  eexists _, _. split; [by vm_compute|].
  split; [by left|]. repeat split; by vm_compute.
Qed.

(** C2 (amended).  After the scenario (an organization, a project, an
    asset, a generation updated to [completed], two variants),
    [get_generation_with_variants] returns the generation [gen_1] with
    status [completed] and exactly the two variants created; every
    returned variant has [org_id] and [project_id] set to the ancestors of
    its storage path; [asset_id] and [generation_id] are not fields of a
    variant and are not attached. *)
Theorem C2_scenario_returns_generation_with_two_variants :
  ∃ gwv,
    outcome scenario w0 = Ok (Some gwv)
    ∧ getattr (gwv_generation gwv) "id" = VStr "gen_1"
    ∧ getattr (gwv_generation gwv) "status" = VStr "completed"
    ∧ getattr (gwv_generation gwv) "org_id" = VStr "org_1"
    ∧ getattr (gwv_generation gwv) "project_id" = VStr "proj_1"
    ∧ length (variants gwv) = 2%nat
    ∧ image_url <$> variants gwv
        ≡ₚ [VStr "gs://example/v1.png"; VStr "gs://example/v2.png"]
    ∧ Forall (variant_metadata "org_1" "proj_1") (variants gwv).
Proof.
  eexists. split; [by vm_compute|].
  do 5 (split; [by vm_compute|]).
  split.
  - vm_compute. first [reflexivity | apply perm_swap].
  - repeat constructor; by vm_compute.
Qed.

(* ===================================================================== *)
(** ** The operations the handlers call *)
(* ===================================================================== *)

(** C3.  The accessor does not define every operation of the uniform
    pattern: twelve are missing, the Delete of users among them.  The
    DELETE handler of an existing user therefore does not delegate to an
    accessor operation and does not answer 204: looking the operation up
    raises [AttributeError], and the user is still stored. *)
Theorem C3_delete_user_calls_a_missing_operation :
  missing_operations
  = [ (Project, Delete); (Generation, Delete);
      (Variant, Update); (Variant, Delete);
      (Theme, Get); (Theme, Update); (Theme, Delete);
      (ConceptImage, Get); (ConceptImage, Update); (ConceptImage, Delete);
      (User, Update); (User, Delete) ]
  ∧ method_name User Delete = "delete_user"
  ∧ accessor_defines User Delete = false
  ∧ is_Some (docs w_user !! ["users"; "user_1"])
  ∧ (∃ u, outcome (index.get_user "user_1") w_user = Ok u)
  ∧ outcome (index.delete_user "user_1") w_user
    = Raise (AttributeError "delete_user")
  ∧ docs (after (index.delete_user "user_1") w_user) = docs w_user.
Proof.
  split; [by vm_compute|]. split; [by vm_compute|]. split; [by vm_compute|].
  split; [eexists; by vm_compute|]. split; [eexists; by vm_compute|].
  split; by vm_compute.
Qed.

(* ===================================================================== *)
(** ** Further properties of the accessor *)
(* ===================================================================== *)

Lemma update_shape t upd doc_id updates :
  update_op t = Some upd ->
  upd doc_id updates
  = firebase._update_doc (document (target_col t) doc_id) updates true.
Proof. destruct t; intros [= <-]; reflexivity. Qed.

Lemma delete_shape t del doc_id :
  delete_op t = Some del ->
  del doc_id = firebase._delete_doc (document (target_col t) doc_id).
Proof. destruct t; intros [= <-]; reflexivity. Qed.

Lemma _get_doc_missing doc_ref cls w :
  faults w = [] -> docs w !! doc_ref = None ->
  firebase._get_doc doc_ref cls w = (Ok None, answered w (RpcGet doc_ref) []).
Proof.
  intros Hq Hd.
  unfold firebase._get_doc, try_except, bind, doc_get, bind, rpc, answered.
  rewrite Hq. simpl. by rewrite Hd.
Qed.

(** A Get of a document that is not stored returns [None], not an error,
    after one read. *)
Theorem get_missing_returns_None t g doc_id w :
  get t = Some g -> faults w = [] ->
  docs w !! document (target_col t) doc_id = None ->
  g doc_id w
  = (Ok None, answered w (RpcGet (document (target_col t) doc_id)) []).
Proof.
  intros Hg Hq Hd. rewrite (get_shape t g doc_id w Hg). unfold get_in.
  erewrite bind_Ok; [|by apply _get_doc_missing]. reflexivity.
Qed.

Lemma get_missing_returns_None_witness :
  outcome (firebase.get_asset "org_1" "proj_1" "asset_9") w_org = Ok None.
Proof.
  unfold outcome.
  rewrite (get_missing_returns_None (InAssets "org_1" "proj_1")
             (firebase.get_asset "org_1" "proj_1") "asset_9" w_org);
    [reflexivity|reflexivity|reflexivity|by vm_compute].
Defined.

Lemma validate_fields_None t data fs f :
  f ∈ fs -> validate_field t data f = None -> validate_fields t data fs = None.
Proof.
  induction fs as [|g fs IH]; intros Hf Hv; [by apply elem_of_nil in Hf|].
  simpl. apply elem_of_cons in Hf as [<-|Hf].
  - by rewrite Hv.
  - rewrite (IH Hf Hv). by destruct (validate_field t data g).
Qed.

Lemma unparseable_construct cls t i d :
  unparseable cls d -> construct cls t (<["id" := VStr i]> d) = None.
Proof.
  unfold construct.
  intros [(f & Hf & Hreq & Hd)|[(-> & s & Hs & Hout)|(-> & z & Hz & Hneg)]].
  - rewrite (validate_fields_None _ _ _ f Hf); [done|].
    unfold validate_field.
    assert (f_name f ≠ "id") as Hid.
    { intros Hn. pose proof (declarations_ok _ _ Hf) as Hok.
      unfold declaration_ok in Hok.
      apply andb_prop in Hok as [[H1 _]%andb_prop H3].
      rewrite bool_decide_eq_true_2 in H1 by (rewrite Hn; by left).
      rewrite Hreq in H3. destruct (f_type f); try done.
      apply andb_prop in H1 as [H1 _]. by rewrite H1 in H3. }
    rewrite lookup_insert_ne by done. by rewrite Hd, Hreq.
  - rewrite (validate_fields_None _ _ _
               (Field "status" TStatus false (Default (VStr "pending")) false));
      [done| |].
    + unfold schema. apply elem_of_app. right. simpl. by do 8 right; left.
    + unfold validate_field. simpl. rewrite lookup_insert_ne by done.
      rewrite Hs. simpl. by rewrite bool_decide_eq_false_2.
  - rewrite (validate_fields_None _ _ _
               (Field "variant_count" TInt false (Default (VInt 0)) true));
      [done| |].
    + unfold schema. apply elem_of_app. right. simpl. by do 6 right; left.
    + unfold validate_field. simpl. rewrite lookup_insert_ne by done.
      rewrite Hz. cbn [has_type andb ge0_ok f_ge0].
      rewrite bool_decide_eq_false_2; [done|lia].
Qed.

(** A Get of a stored document that its class cannot take raises a
    [FirestoreError]: the document is neither returned nor reported as
    missing. *)
Theorem get_unparseable_raises t g doc_id w d :
  get t = Some g -> faults w = [] ->
  docs w !! document (target_col t) doc_id = Some d ->
  unparseable (target_cls t) d ->
  outcome (g doc_id) w = Raise (FirestoreError "Failed to parse document")
  ∧ docs (after (g doc_id) w) = docs w.
Proof.
  intros Hg Hq Hd Hbad. unfold outcome, after.
  rewrite (get_shape t g doc_id w Hg).
  unfold get_in, bind, firebase._get_doc, try_except, bind, doc_get, bind, rpc.
  rewrite Hq. simpl. rewrite Hd.
  unfold firebase._doc_to_model, bind, now, ret, raise. simpl.
  rewrite ref_id_document.
  by rewrite (unparseable_construct _ _ _ _ Hbad).
Qed.

Lemma get_unparseable_raises_witness :
  let d : gmap string value :=
    {[ "prompt_text" := VStr "a hero"; "status" := VStr "archived" ]} in
  let w := mkWorld
             {[ ["organizations"; "org_1"; "projects"; "proj_1"; "assets";
                 "asset_1"; "generations"; "gen_1"] := d ]} 5 [] 0 [] 100 in
  outcome (firebase.get_generation "org_1" "proj_1" "asset_1" "gen_1") w
  = Raise (FirestoreError "Failed to parse document").
Proof.
  intros d w.
  apply (get_unparseable_raises (InGenerations "org_1" "proj_1" "asset_1")
           (firebase.get_generation "org_1" "proj_1" "asset_1") "gen_1" w d).
  - reflexivity.
  - reflexivity.
  - by vm_compute.
  - right; left. split; [reflexivity|]. exists "archived".
    split; [by vm_compute|].
    intros H. by apply (bool_decide_pack _) in H.
Defined.



Lemma _delete_doc_quiet doc_ref w :
  faults w = [] ->
  firebase._delete_doc doc_ref w
  = (Ok tt,
     mkWorld (delete doc_ref (docs w)) (server_clock w + 1) [] (auto_ids w)
       (log w ++ [RpcDelete doc_ref]) (client_clock w)).
Proof.
  intros Hq. unfold firebase._delete_doc, try_except, doc_delete, bind, rpc.
  by rewrite Hq.
Qed.

(** Delete removes exactly the addressed document, whether or not it was
    stored: every other document, its descendants included, stays; a Get
    then returns [None]; and a second Delete is not an error. *)
Theorem delete_then_get t del g doc_id w :
  delete_op t = Some del -> get t = Some g -> faults w = [] ->
  let doc_ref := document (target_col t) doc_id in
  let w' := after (del doc_id) w in
  outcome (del doc_id) w = Ok tt
  ∧ docs w' !! doc_ref = None
  ∧ (∀ p, p ≠ doc_ref -> docs w' !! p = docs w !! p)
  ∧ (∀ rest, rest ≠ [] -> docs w' !! (doc_ref ++ rest) = docs w !! (doc_ref ++ rest))
  ∧ outcome (g doc_id) w' = Ok None
  ∧ outcome (del doc_id) w' = Ok tt
  ∧ docs (after (del doc_id) w') = docs w'.
Proof.
  intros Hdel Hg Hq doc_ref w'. unfold w', after, outcome.
  rewrite !(delete_shape t del doc_id Hdel).
  rewrite (_delete_doc_quiet _ w Hq). cbn [fst snd].
  rewrite _delete_doc_quiet by done. cbn [fst snd docs].
  assert (∀ p, p ≠ doc_ref ->
            delete doc_ref (docs w) !! p = docs w !! p) as Hother
    by (intros p Hp; by rewrite lookup_delete_ne).
  split; [done|]. split; [apply lookup_delete_eq|]. split; [exact Hother|].
  split.
  { intros rest Hrest. apply Hother. intros H.
    apply (f_equal length) in H. rewrite length_app in H.
    destruct rest; [done|]. simpl in H. lia. }
  split.
  { erewrite get_missing_returns_None; [done|done|done|].
    simpl. apply lookup_delete_eq. }
  split; [done|].
  apply map_eq. intros p. destruct (decide (p = doc_ref)) as [->|Hp].
  - by rewrite !lookup_delete_eq.
  - by rewrite !lookup_delete_ne.
Qed.

Lemma delete_then_get_witness :
  outcome (firebase.get_organization "org_1")
    (after (firebase.delete_organization "org_1") w_org) = Ok None
  ∧ is_Some (docs w_org !! ["organizations"; "org_1"]).
Proof.
  split.
  - by destruct (delete_then_get InOrganizations firebase.delete_organization
                   firebase.get_organization "org_1" w_org eq_refl eq_refl
                   eq_refl) as (_ & _ & _ & _ & H & _).
  - eexists. by vm_compute.
Defined.

(** An Update of a stored document merges the given fields into it and
    sets [updated_at] to the store's time: a field of the map takes its
    new value (a null one included), every other field keeps its value,
    no other document changes, and the one call made is the update.  An
    empty map is not rejected: it refreshes [updated_at] only. *)
Theorem update_merges_fields t upd doc_id updates w old :
  update_op t = Some upd -> faults w = [] ->
  docs w !! document (target_col t) doc_id = Some old ->
  let doc_ref := document (target_col t) doc_id in
  let w' := after (upd doc_id updates) w in
  outcome (upd doc_id updates) w = Ok tt
  ∧ (∃ d, docs w' !! doc_ref = Some d
       ∧ d !! "updated_at" = Some (VTime (server_clock w))
       ∧ (∀ k v, k ≠ "updated_at" -> updates !! k = Some v -> d !! k = Some v)
       ∧ (∀ k, k ≠ "updated_at" -> updates !! k = None -> d !! k = old !! k))
  ∧ (∀ p, p ≠ doc_ref -> docs w' !! p = docs w !! p)
  ∧ log w'
    = log w ++ [RpcUpdate doc_ref
                  (<["updated_at" := SERVER_TIMESTAMP]> (Plain <$> updates))]
  ∧ server_clock w < server_clock w'.
Proof.
  intros Hupd Hq Hold doc_ref w'. unfold w', doc_ref, after, outcome.
  rewrite (update_shape t upd doc_id updates Hupd).
  unfold firebase._update_doc, try_except, doc_update, bind, rpc.
  rewrite Hq. cbn [fst snd docs]. rewrite Hold. unfold with_docs.
  cbn [fst snd docs log server_clock].
  split; [done|]. split; [|split; [|split; [done|lia]]].
  - eexists. split; [apply lookup_insert_eq|].
    split; [|split].
    + apply lookup_union_Some_l. unfold stamp.
      by rewrite lookup_fmap, lookup_insert_eq.
    + intros k v Hk Hv. apply lookup_union_Some_l. unfold stamp.
      rewrite lookup_fmap, lookup_insert_ne by done.
      by rewrite lookup_fmap, Hv.
    + intros k Hk Hv. apply lookup_union_r. unfold stamp.
      rewrite lookup_fmap, lookup_insert_ne by done.
      by rewrite lookup_fmap, Hv.
  - intros p Hp. by rewrite lookup_insert_ne.
Qed.

Lemma update_merges_fields_witness :
  let w' := after (firebase.update_organization "org_1" ∅) w_org in
  ∃ d, docs w' !! ["organizations"; "org_1"] = Some d
       ∧ d !! "updated_at" = Some (VTime 6)
       ∧ d !! "name" = Some (VStr "Acme").
Proof.
  intros w'.
  destruct (update_merges_fields InOrganizations firebase.update_organization
              "org_1" ∅ w_org
              (default ∅ (docs w_org !! ["organizations"; "org_1"]))
              eq_refl eq_refl)
    as (_ & (d & Hd & Hu & _ & Hkeep) & _).
  - by vm_compute.
  - exists d. split; [exact Hd|]. split; [exact Hu|].
    rewrite Hkeep by done. by vm_compute.
Defined.



(* ===================================================================== *)
(** ** Further properties of the handlers *)
(* ===================================================================== *)



Lemma _get_doc_quiet_world doc_ref cls w :
  faults w = [] ->
  (firebase._get_doc doc_ref cls w).2 = answered w (RpcGet doc_ref) [].
Proof.
  intros Hq.
  unfold firebase._get_doc, try_except, bind, doc_get, bind, rpc, answered.
  rewrite Hq. simpl.
  unfold firebase._doc_to_model, bind, now, ret, raise. simpl.
  destruct (docs w !! doc_ref); simpl; [|done].
  by destruct (construct _ _ _).
Qed.

Lemma get_quiet_world t g i w :
  get t = Some g -> faults w = [] ->
  (g i w).2 = answered w (RpcGet (document (target_col t) i)) [].
Proof.
  intros Hg Hq. rewrite (get_shape t g i w Hg). unfold get_in, bind.
  pose proof (_get_doc_quiet_world (document (target_col t) i) (target_cls t)
                w Hq) as Hw.
  destruct (firebase._get_doc _ _ w) as [[[m|]|e] w1]; simpl in *; by subst.
Qed.



